(** * ReviewUplift: the business dashboard and the navigation sidebar

    A shallow embedding of the deterministic logic of two React screens,
    [src/components/sidebar.tsx] and
    [src/components/business/dashboard/page.tsx]:

    - the sidebar's [checkUserStatus] (trial / subscription standing) and
      the gating of its navigation entries;
    - the dashboard's access guard [checkSubscription], its data loader
      (review statistics, recency sort) and [calculatePercentage].

    Conventions of the embedding.

    - A JavaScript number that the code obtains by [/] (and whatever it
      computes from the quotient) is an IEEE-754 binary64 value, Rocq's
      primitive [float]; [Math.ceil], [Math.round] and
      [parseFloat(x.toFixed(1))] are computed exactly from the decoded
      mantissa and exponent.
    - Numbers the code only counts with or takes from integral sources
      (bucket counters, [Array.length], epoch seconds and milliseconds,
      star ratings) are [Z].
    - The document store and the authentication service are outside the
      repository: what they answer is an argument of each handler.
    - [setX] calls of React state, [navigate] and [console] calls are
      writes to an explicit state; [throw] / [try] / [catch] / [finally]
      are those of a small state-and-exception monad. *)

From Stdlib Require Import ZArith List String Floats Lia.
From Stdlib Require Import Sorting.Sorted Sorting.Permutation.
From stdpp Require Import base list.

Local Open Scope string_scope.
Local Open Scope Z_scope.

(** ** JavaScript numbers *)

Module Number.

Definition number := float.

(** The Number nearest to an integer (ties to even): what an integer
    literal or an integral store value denotes. *)
Definition of_Z (z : Z) : number :=
  SF2Prim (binary_normalize prec emax z 0 false).

(** An integral result whose zero keeps the sign of the argument
    ([Math.ceil(-0.5)] and [Math.round(-0.2)] are [-0]). *)
Definition signed_int (neg : bool) (z : Z) : number :=
  SF2Prim (binary_normalize prec emax z 0 neg).

(** The Number nearest to the rational [p / q], for [0 <= p] and
    [0 < q]: the quotient is taken with 64 extra bits and a sticky bit,
    then rounded once. This is what [parseFloat] returns on the decimal
    digits of [p / q]. *)
Definition nearest_ratio (p q : Z) : number :=
  let scaled := p * 2 ^ 64 in
  let sticky := if scaled mod q =? 0 then 0 else 1 in
  SF2Prim (binary_normalize prec emax (2 * (scaled / q) + sticky) (-65) false).

(** [Math.ceil]: the least integral Number not below [x]. A finite [x]
    with a non-negative exponent is integral already. *)
Definition Math_ceil (x : number) : number :=
  match Prim2SF x with
  | S754_finite s m (Zneg k) =>
      let v := if s then Zneg m else Zpos m in
      signed_int s (- ((- v) / 2 ^ Zpos k))
  | _ => x
  end.

(** [Math.round]: the integral Number nearest to [x], a tie going
    towards plus infinity, i.e. [floor (x + 1/2)] taken exactly. *)
Definition Math_round (x : number) : number :=
  match Prim2SF x with
  | S754_finite s m (Zneg k) =>
      let v := if s then Zneg m else Zpos m in
      signed_int s ((2 * v + 2 ^ Zpos k) / 2 ^ (Zpos k + 1))
  | _ => x
  end.

(** [parseFloat(x.toFixed(1))]. [toFixed] prints ["NaN"] for NaN and
    the shortest round-trip digits from 1e21 on, which [parseFloat]
    reads back as [x]; below that it picks the integer [n] with
    [n / 10] nearest to the magnitude of [x] (the larger one on a tie)
    and prints sign, integer part and one digit. *)
Definition toFixed1_parseFloat (x : number) : number :=
  match Prim2SF x with
  | S754_finite s m e =>
      if PrimFloat.leb 1e21 (PrimFloat.abs x) then x
      else
        let n := match e with
                 | Zneg k => (20 * Zpos m + 2 ^ Zpos k) / 2 ^ (Zpos k + 1)
                 | _ => 10 * Zpos m * 2 ^ e
                 end in
        let r := nearest_ratio n 10 in
        if s then PrimFloat.opp r else r
  | S754_zero _ => PrimFloat.zero
  | _ => x
  end.

(** [Math.floor]: the greatest integral Number not above [x]. *)
Definition Math_floor (x : number) : number :=
  match Prim2SF x with
  | S754_finite s m (Zneg k) =>
      let v := if s then Zneg m else Zpos m in
      signed_int s (v / 2 ^ Zpos k)
  | _ => x
  end.

(** The integer a Number is, when it is one. *)
Definition integral (x : number) : option Z :=
  match Prim2SF x with
  | S754_zero _ => Some 0
  | S754_finite s m e =>
      let v := if s then Zneg m else Zpos m in
      match e with
      | Zneg k => if v mod 2 ^ Zpos k =? 0 then Some (v / 2 ^ Zpos k) else None
      | _ => Some (v * 2 ^ e)
      end
  | _ => None
  end.

(** [ToNumber] of a field that is absent ([undefined]) or an integer. *)
Definition ToNumber (v : option Z) : number :=
  match v with
  | Some z => of_Z z
  | None => PrimFloat.nan
  end.

End Number.
Import Number.

(** ** Truthiness and the [||] defaults of untyped document fields *)

Definition truthy_bool (v : option bool) : bool :=
  match v with Some b => b | None => false end.

Definition truthy_string (v : option string) : bool :=
  match v with Some s => negb (String.eqb s "") | None => false end.

(** [v || d] for an optional string: the empty string is falsy. *)
Definition or_string (v : option string) (d : string) : string :=
  match v with
  | Some s => if String.eqb s "" then d else s
  | None => d
  end.

(** [v || 0] for an optional integer ([0] is falsy and defaults to [0]). *)
Definition or_zero (v : option Z) : Z :=
  match v with
  | Some z => if z =? 0 then 0 else z
  | None => 0
  end.

Definition or_false (v : option bool) : bool := truthy_bool v.

(** ** Documents of the store *)

(** A JavaScript [Date]: a time value in milliseconds, or an Invalid
    Date, whose time value is NaN. *)
Inductive Date : Type :=
| ValidDate (time : Z)
| InvalidDate.

(** The largest time value of a [Date], 8.64e15 ms on either side of the
    epoch. *)
Definition maxTime : Z := 8640000000000000.

(** [new Date(ms)] for an integral [ms]: beyond [maxTime] the result is
    an Invalid Date. *)
Definition newDate (ms : Z) : Date :=
  if Z.abs ms <=? maxTime then ValidDate ms else InvalidDate.

(** A timestamp field as the handlers can meet it. A store timestamp
    carries [toDate()], whose result is a [Date] with the given time
    value in milliseconds (the store keeps its timestamps between the
    years 1 and 9999, inside the range of [Date]); a plain record only
    has [seconds]; a faulty value has a truthy [toDate] whose call
    throws. *)
Inductive TsField : Type :=
| TsMissing
| TsTimestamp (millis : Z)
| TsSeconds (seconds : Z)
| TsFaulty.

Module Business.
Record Info : Type := {
  businessName : option string;
  linkClicks : option Z;
  responseRate : option Z
}.
End Business.

Record UserData : Type := {
  businessInfo : option Business.Info;
  trialEndDate : TsField;
  subscriptionActive : option bool;
  subscriptionEndDate : TsField;
  subscriptionPlan : option string
}.

(** A review document: [doc.id] and the fields of [doc.data()]. *)
Record ReviewDoc : Type := {
  doc_id : string;
  data_name : option string;
  data_rating : option Z;
  data_review : option string;
  data_message : option string;
  data_createdAt : option Z;
  data_status : option string;
  data_branchname : option string;
  data_replied : option bool
}.

(** What an awaited store call yields: a rejection or a value. For
    [getDoc] the value is the snapshot, [None] when [exists()] is false. *)
Inductive Fetched (A : Type) : Type :=
| FetchFailed
| FetchOk (a : A).
Arguments FetchFailed {A}.
Arguments FetchOk {A} a.

(** ** Effects: state, exceptions, try / catch / finally *)

Inductive Exn : Type :=
| StoreError
| TypeError.

Inductive Outcome (A : Type) : Type :=
| Returned (a : A)
| Thrown (e : Exn).
Arguments Returned {A} a.
Arguments Thrown {A} e.

Definition Eff (S A : Type) : Type := S -> Outcome A * S.

Section Effects.
Context {S : Type}.

Definition pure {A} (a : A) : Eff S A := fun s => (Returned a, s).

Definition andThen {A B} (c : Eff S A) (k : A -> Eff S B) : Eff S B :=
  fun s =>
    match c s with
    | (Returned a, s') => k a s'
    | (Thrown e, s') => (Thrown e, s')
    end.

Definition throw {A} (e : Exn) : Eff S A := fun s => (Thrown e, s).

Definition update (f : S -> S) : Eff S unit := fun s => (Returned tt, f s).

Definition tryCatch (body : Eff S unit) (handler : Exn -> Eff S unit) : Eff S unit :=
  fun s =>
    match body s with
    | (Returned tt, s') => (Returned tt, s')
    | (Thrown e, s') => handler e s'
    end.

Definition tryCatchFinally (body : Eff S unit) (handler : Exn -> Eff S unit)
    (finalizer : Eff S unit) : Eff S unit :=
  fun s =>
    match tryCatch body handler s with
    | (Returned tt, s') => finalizer s'
    | (Thrown e, s') =>
        match finalizer s' with
        | (Returned tt, s'') => (Thrown e, s'')
        | (Thrown e', s'') => (Thrown e', s'')
        end
    end.

(** [await] of a store call. *)
Definition await {A} (r : Fetched A) : Eff S A :=
  match r with
  | FetchFailed => throw StoreError
  | FetchOk a => pure a
  end.

End Effects.

Notation "'let*' x ':=' c 'in' k" := (andThen c (fun x => k))
  (at level 10, x name, c at level 100, k at level 200).
Notation "c '>>' k" := (andThen c (fun _ => k))
  (at level 90, right associativity).

(** ** The sidebar *)

Module Trial.
Record Info : Type := {
  daysLeft : number;
  isTrial : bool;
  trialEnded : bool;
  hasSubscription : bool
}.
End Trial.

Module Subscription.
Record Info : Type := {
  planName : string;
  daysLeft : number;
  endDate : option Date;
  isActive : bool
}.
End Subscription.

Inductive LogEntry : Type :=
| ConsoleLog (msg : string)
| ConsoleError (msg : string) (e : Exn).

Module Sidebar.

(** The two [useState] cells written by [checkUserStatus], and the
    console. *)
Record State : Type := {
  trialInfo : Trial.Info;
  subscription : Subscription.Info;
  console : list LogEntry
}.

Definition initial : State := {|
  trialInfo := {| Trial.daysLeft := 0%float; Trial.isTrial := false;
                  Trial.trialEnded := false; Trial.hasSubscription := false |};
  subscription := {| Subscription.planName := ""; Subscription.daysLeft := 0%float;
                     Subscription.endDate := None; Subscription.isActive := false |};
  console := []
|}.

Definition setTrialInfo (t : Trial.Info) : Eff State unit :=
  update (fun s => {| trialInfo := t; subscription := subscription s;
                      console := console s |}).

Definition setSubscription (b : Subscription.Info) : Eff State unit :=
  update (fun s => {| trialInfo := trialInfo s; subscription := b;
                      console := console s |}).

Definition console_write (l : LogEntry) : Eff State unit :=
  update (fun s => {| trialInfo := trialInfo s; subscription := subscription s;
                      console := console s ++ [l] |}).

(** Lines 56-61 and 64-70: [?.toDate] first, then a truthy
    [?.seconds] given to [new Date(seconds * 1000)], else [null]. The
    result is the [Date] built, or [None] for [null]. *)
Definition dateOf (f : TsField) : Outcome (option Date) :=
  match f with
  | TsMissing => Returned None
  | TsTimestamp millis => Returned (Some (ValidDate millis))
  | TsSeconds seconds =>
      Returned (if seconds =? 0 then None else Some (newDate (seconds * 1000)))
  | TsFaulty => Thrown TypeError
  end.

Definition readDate (f : TsField) : Eff State (option Date) :=
  fun s => (dateOf f, s).

Definition msPerDay : Z := 1000 * 60 * 60 * 24.

(** [Math.ceil((end.getTime() - now.getTime()) / (1000*60*60*24))]. *)
Definition daysUntil (endTime now : Z) : number :=
  Math_ceil (PrimFloat.div (of_Z (endTime - now)) (of_Z msPerDay)).

(** The same for a [Date] object: the time value of an Invalid Date is
    NaN. *)
Definition daysUntilDate (d : Date) (now : Z) : number :=
  match d with
  | ValidDate endTime => daysUntil endTime now
  | InvalidDate =>
      Math_ceil (PrimFloat.div (PrimFloat.sub PrimFloat.nan (of_Z now))
                   (of_Z msPerDay))
  end.

(** [d > now] on [Date] objects: a comparison with the NaN of an
    Invalid Date is false. *)
Definition laterThan (d : Date) (now : Z) : bool :=
  match d with
  | ValidDate time => now <? time
  | InvalidDate => false
  end.

Definition noSubscription : Subscription.Info :=
  {| Subscription.planName := ""; Subscription.daysLeft := 0%float;
     Subscription.endDate := None; Subscription.isActive := false |}.

(** The body of the [try] block of [checkUserStatus]. *)
Definition checkUserStatus_try (userSnap : Fetched (option UserData)) (now : Z)
  : Eff State unit :=
  let* snap := await userSnap in
  match snap with
  | None => console_write (ConsoleLog "No user document found")
  | Some userData =>
      let* trialEnd := readDate (trialEndDate userData) in
      let* subscriptionEnd := readDate (subscriptionEndDate userData) in
      let planName :=
        match subscriptionPlan userData with
        | Some plan => if truthy_string (Some plan) then plan else ""
        | None => ""
        end in
      match truthy_bool (subscriptionActive userData), subscriptionEnd with
      | true, Some subEnd =>
          setSubscription
            {| Subscription.planName := planName;
               Subscription.daysLeft := daysUntilDate subEnd now;
               Subscription.endDate := Some subEnd;
               Subscription.isActive := true |} >>
          setTrialInfo
            {| Trial.daysLeft := 0%float; Trial.isTrial := false;
               Trial.trialEnded := false; Trial.hasSubscription := true |}
      | _, _ =>
          match trialEnd with
          | Some trialEndTime =>
              if laterThan trialEndTime now then
                setTrialInfo
                  {| Trial.daysLeft := daysUntilDate trialEndTime now;
                     Trial.isTrial := true; Trial.trialEnded := false;
                     Trial.hasSubscription := false |} >>
                setSubscription noSubscription
              else
                setTrialInfo
                  {| Trial.daysLeft := 0%float; Trial.isTrial := false;
                     Trial.trialEnded := true; Trial.hasSubscription := false |} >>
                setSubscription noSubscription
          | None =>
              setTrialInfo
                {| Trial.daysLeft := 0%float; Trial.isTrial := false;
                   Trial.trialEnded := true; Trial.hasSubscription := false |} >>
              setSubscription noSubscription
          end
      end
  end.

Definition checkUserStatus (userSnap : Fetched (option UserData)) (now : Z)
  : Eff State unit :=
  tryCatch (checkUserStatus_try userSnap now)
    (fun e => console_write (ConsoleError "Error checking user status:" e)).

(** The [onAuthStateChanged] callback of the sidebar. *)
Definition onAuthStateChanged (user : option string)
    (userSnap : Fetched (option UserData)) (now : Z) : Eff State unit :=
  match user with
  | Some uid => checkUserStatus userSnap now
  | None => pure tt
  end.

(** *** Navigation entries *)

Record SubLink : Type := { sub_name : string; sub_href : string }.

Record NavLink : Type := {
  name : string;
  href : string;
  subLinks : option (list SubLink)
}.

Definition businessLinks : list NavLink := [
  {| name := "Dashboard"; href := "/components/business/dashboard";
     subLinks := None |};
  {| name := "Reviews"; href := "/components/business/reviews";
     subLinks := None |};
  {| name := "Review Link"; href := "/components/business/review-link";
     subLinks := None |};
  {| name := "Settings"; href := "/components/business/settings";
     subLinks := Some [
       {| sub_name := "Account";
          sub_href := "/components/business/settings/account" |};
       {| sub_name := "Locations";
          sub_href := "/components/business/settings/location" |};
       {| sub_name := "Business Users";
          sub_href := "/components/business/settings/businessusers" |} ] |}
].

(** [haystack.includes(needle)]. *)
Definition includes (haystack needle : string) : bool :=
  match String.index 0 needle haystack with
  | Some _ => true
  | None => false
  end.

Definition isSettingsActive (pathname : string) : bool :=
  includes pathname "/settings".

(** The [open] (mobile sheet) and [settingsOpen] cells. *)
Record Ui : Type := { sheetOpen : bool; settingsOpen : bool }.

Definition setOpen (b : bool) (ui : Ui) : Ui :=
  {| sheetOpen := b; settingsOpen := settingsOpen ui |}.

Definition setSettingsOpen (b : bool) (ui : Ui) : Ui :=
  {| sheetOpen := sheetOpen ui; settingsOpen := b |}.

(** The three arms of each [cn(...)] class choice. *)
Inductive Style : Type :=
| ActiveStyle
| DisabledStyle
| HoverStyle.

(** What [SidebarContent] renders for the navigation: a router [Link]
    with its target and click handler (the handler answers whether it
    called [preventDefault]), or a [button] with its [disabled]
    attribute, click handler and the sub-links shown under it. A
    handler is a closure of the render: it sees the [settingsOpen] and
    the [isDisabled] of the state that was rendered. *)
Record LinkElement : Type := {
  link_label : string;
  to : string;
  link_style : Style;
  link_onClick : Ui -> Ui * bool
}.

Inductive Element : Type :=
| Link (l : LinkElement)
| Button (button_label : string) (style : Style) (disabled : bool)
    (onClick : Ui -> Ui) (shown : list LinkElement).

Definition label (e : Element) : string :=
  match e with
  | Link l => link_label l
  | Button l _ _ _ _ => l
  end.

(** A click on a router [Link] runs its handler and navigates to its
    target unless the default was prevented. *)
Definition clickLink (l : LinkElement) (ui : Ui) : Ui * option string :=
  let '(ui', prevented) := link_onClick l ui in
  (ui', if prevented then None else Some (to l)).

(** A [button] runs its handler unless it is disabled, and never
    navigates by itself. *)
Definition click (e : Element) (ui : Ui) : Ui * option string :=
  match e with
  | Link l => clickLink l ui
  | Button _ _ disabled onClick _ =>
      (if disabled then ui else onClick ui, None)
  end.

Definition isDisabled (st : State) (link : NavLink) : bool :=
  Trial.trialEnded (trialInfo st)
  && negb (Subscription.isActive (subscription st))
  && negb (String.eqb (name link) "Settings").

Definition shouldKeepSettingsOpen (pathname : string) : bool :=
  existsb (fun link =>
    match subLinks link with
    | Some subs => existsb (fun sub => String.eqb pathname (sub_href sub)) subs
    | None => false
    end) businessLinks.

Definition renderSubLink (pathname : string) (sub : SubLink) : LinkElement :=
  {| link_label := sub_name sub;
     to := sub_href sub;
     link_style :=
       if String.eqb pathname (sub_href sub) then ActiveStyle else HoverStyle;
     link_onClick := fun ui => (setOpen false ui, false) |}.

Definition renderLink (st : State) (ui : Ui) (pathname : string)
    (link : NavLink) : Element :=
  let isActive :=
    String.eqb pathname (href link)
    || (String.eqb (name link) "Settings" && isSettingsActive pathname) in
  let isSettingsItem := String.eqb (name link) "Settings" in
  let disabled := isDisabled st link in
  let style :=
    if isActive then ActiveStyle
    else if disabled then DisabledStyle else HoverStyle in
  match subLinks link with
  | None =>
      Link {| link_label := name link;
              to := if disabled then "#" else href link;
              link_style := style;
              link_onClick := fun ui =>
                if disabled then (ui, true) else (setOpen false ui, false) |}
  | Some subs =>
      Button (name link) style disabled
        (fun ui' =>
           if disabled then ui'
           else if isSettingsItem
                then setSettingsOpen (negb (settingsOpen ui)) ui' else ui')
        (if isSettingsItem
            && (settingsOpen ui || shouldKeepSettingsOpen pathname)
         then map (renderSubLink pathname) subs else [])
  end.

Definition SidebarContent (st : State) (ui : Ui) (pathname : string)
  : list Element :=
  map (renderLink st ui pathname) businessLinks.

(** The status lines under the navigation: a count followed by a
    suffix (the template string), or a fixed text. *)
Inductive StatusText : Type :=
| Counted (n : number) (suffix : string)
| Fixed (text : string).

Definition trialText (st : State) : option StatusText :=
  if Trial.isTrial (trialInfo st)
     && negb (Subscription.isActive (subscription st))
  then
    let d := Trial.daysLeft (trialInfo st) in
    Some (if PrimFloat.ltb 1 d then Counted d " days left"
          else if PrimFloat.eqb d 1 then Fixed "Last day"
               else Fixed "Ends today")
  else None.

Definition subscriptionText (st : State) : option StatusText :=
  if Subscription.isActive (subscription st) then
    let d := Subscription.daysLeft (subscription st) in
    Some (if PrimFloat.ltb 1 d then Counted d " days remaining"
          else if PrimFloat.eqb d 1 then Fixed "Renews tomorrow"
               else Fixed "Renews today")
  else None.

(** The "Trial Expired" alert (lines 334-342). *)
Definition trialExpiredAlert (st : State) : bool :=
  Trial.trialEnded (trialInfo st)
  && negb (Subscription.isActive (subscription st)).

(** The effect run on mount and on every change of path (lines
    136-141): the settings list is opened on a settings path. *)
Definition mountEffect (pathname : string) (ui : Ui) : Ui :=
  if includes pathname "/components/business/settings"
  then setSettingsOpen true ui else ui.

(** The effect inside [SidebarContent] (lines 187-191). *)
Definition keepOpenEffect (pathname : string) (ui : Ui) : Ui :=
  if shouldKeepSettingsOpen pathname then setSettingsOpen true ui else ui.

Definition style_of (e : Element) : Style :=
  match e with
  | Link l => link_style l
  | Button _ style _ _ _ => style
  end.

Definition shown_of (e : Element) : list LinkElement :=
  match e with
  | Link _ => []
  | Button _ _ _ _ shown => shown
  end.

Definition isActiveStyle (s : Style) : bool :=
  match s with
  | ActiveStyle => true
  | _ => false
  end.

End Sidebar.

(** ** The dashboard page *)

(** [Array.prototype.sort] with a comparator: a stable sort (ECMAScript
    2019), written as the insertion of each element, from the last to
    the first, before the first element it does not compare greater
    than. *)
Fixpoint insert_by {A : Type} (cmp : A -> A -> Z) (x : A) (l : list A) : list A :=
  match l with
  | [] => [x]
  | y :: l' => if cmp x y <=? 0 then x :: y :: l' else y :: insert_by cmp x l'
  end.

Definition Array_sort {A : Type} (cmp : A -> A -> Z) (l : list A) : list A :=
  foldr (insert_by cmp) [] l.

Module Dashboard.

(** A normalized review, as pushed on [reviewsData]. *)
Record Review : Type := {
  id : string;
  name : string;
  rating : Z;
  review : string;
  createdAt : Z;
  status : string;
  branchname : string;
  replied : bool
}.

(** *** The access guard, [useSubscriptionStatus] *)

Definition checkSubscription {S : Type} (userSnap : Fetched (option UserData))
    (now : Z) : Eff S bool :=
  let* snap := await userSnap in
  match snap with
  | None => pure false
  | Some userData =>
      if truthy_bool (subscriptionActive userData) then pure true
      else
        match trialEndDate userData with
        | TsMissing => pure false
        | TsTimestamp millis => if now <? millis then pure true else pure false
        | TsSeconds _ => throw TypeError
        | TsFaulty => throw TypeError
        end
  end.

Record Stats : Type := {
  totalReviews : Z;
  averageRating : number;
  linkClicks : Z;
  responseRate : Z;
  ratingDistribution : list Z
}.

(** The page's [useState] cells, the router's navigation requests and
    the console. *)
Record Page : Type := {
  businessName : string;
  loading : bool;
  reviews : list Review;
  stats : Stats;
  navigations : list string;
  console : list LogEntry
}.

Definition initial : Page := {|
  businessName := "";
  loading := true;
  reviews := [];
  stats := {| totalReviews := 0; averageRating := 0%float; linkClicks := 0;
              responseRate := 0; ratingDistribution := [0; 0; 0; 0; 0] |};
  navigations := [];
  console := []
|}.

Definition navigate (path : string) : Eff Page unit :=
  update (fun p =>
    {| businessName := businessName p; loading := loading p;
       reviews := reviews p; stats := stats p;
       navigations := navigations p ++ [path]; console := console p |}).

Definition console_error (msg : string) (e : Exn) : Eff Page unit :=
  update (fun p =>
    {| businessName := businessName p; loading := loading p;
       reviews := reviews p; stats := stats p;
       navigations := navigations p;
       console := console p ++ [ConsoleError msg e] |}).

Definition setBusinessName (n : string) : Eff Page unit :=
  update (fun p =>
    {| businessName := n; loading := loading p;
       reviews := reviews p; stats := stats p;
       navigations := navigations p; console := console p |}).

Definition setLoading (b : bool) : Eff Page unit :=
  update (fun p =>
    {| businessName := businessName p; loading := b;
       reviews := reviews p; stats := stats p;
       navigations := navigations p; console := console p |}).

Definition setReviews (l : list Review) : Eff Page unit :=
  update (fun p =>
    {| businessName := businessName p; loading := loading p;
       reviews := l; stats := stats p;
       navigations := navigations p; console := console p |}).

Definition setStats (f : Stats -> Stats) : Eff Page unit :=
  update (fun p =>
    {| businessName := businessName p; loading := loading p;
       reviews := reviews p; stats := f (stats p);
       navigations := navigations p; console := console p |}).

(** The [onAuthStateChanged] callback of the guard. *)
Definition guardHandler (user : option string)
    (userSnap : Fetched (option UserData)) (now : Z) : Eff Page unit :=
  match user with
  | Some uid =>
      let* hasActiveAccess := checkSubscription userSnap now in
      if negb hasActiveAccess then navigate "/pricing" else pure tt
  | None => pure tt
  end.

(** *** The review aggregator *)

(** The three locals the [forEach] callback writes. *)
Record Acc : Type := {
  reviewsData : list Review;
  totalRating : number;
  ratingCounts : list Z
}.

Definition normalize (doc : ReviewDoc) : Review := {|
  id := doc_id doc;
  name := or_string (data_name doc) "Anonymous";
  rating := or_zero (data_rating doc);
  review := or_string (data_review doc) (or_string (data_message doc) "");
  createdAt := match data_createdAt doc with Some seconds => seconds | None => 0 end;
  status := or_string (data_status doc) "pending";
  branchname := or_string (data_branchname doc) "";
  replied := or_false (data_replied doc)
|}.

(** [data.rating >= 1 && data.rating <= 5]; a comparison with
    [undefined] is false. *)
Definition inBucketRange (v : option Z) : bool :=
  match v with
  | Some r => (1 <=? r) && (r <=? 5)
  | None => false
  end.

Definition forEach_step (acc : Acc) (doc : ReviewDoc) : Acc := {|
  reviewsData := reviewsData acc ++ [normalize doc];
  totalRating := PrimFloat.add (totalRating acc) (ToNumber (data_rating doc));
  ratingCounts :=
    match data_rating doc with
    | Some r =>
        if inBucketRange (Some r)
        then alter Z.succ (Z.to_nat (5 - r)) (ratingCounts acc)
        else ratingCounts acc
    | None => ratingCounts acc
    end
|}.

Definition forEach (docs : list ReviewDoc) : Acc :=
  fold_left forEach_step docs
    {| reviewsData := []; totalRating := 0%float; ratingCounts := [0; 0; 0; 0; 0] |}.

Definition byRecency (a b : Review) : Z := createdAt b - createdAt a.

(** Lines 156-171: what the loader derives from the fetched documents. *)
Definition count_of (docs : list ReviewDoc) : Z :=
  Z.of_nat (length (reviewsData (forEach docs))).

Definition average_of (docs : list ReviewDoc) : number :=
  if 0 <? count_of docs
  then toFixed1_parseFloat
         (PrimFloat.div (totalRating (forEach docs)) (of_Z (count_of docs)))
  else 0%float.

Definition sorted_of (docs : list ReviewDoc) : list Review :=
  Array_sort byRecency (reviewsData (forEach docs)).

Definition distribution_of (docs : list ReviewDoc) : list Z :=
  ratingCounts (forEach docs).

(** The [onAuthStateChanged] callback of [BusinessDashboard]. *)
Definition loadHandler (user : option string)
    (userDoc : Fetched (option UserData))
    (querySnapshot : Fetched (list ReviewDoc)) : Eff Page unit :=
  match user with
  | Some uid =>
      tryCatchFinally
        (let* snap := await userDoc in
         match snap with
         | None => navigate "/login"
         | Some userData =>
             let businessData := businessInfo userData in
             setBusinessName
               (or_string (businessData ≫= Business.businessName) "") >>
             setStats (fun prev =>
               {| totalReviews := totalReviews prev;
                  averageRating := averageRating prev;
                  linkClicks := or_zero (businessData ≫= Business.linkClicks);
                  responseRate := or_zero (businessData ≫= Business.responseRate);
                  ratingDistribution := ratingDistribution prev |}) >>
             let* docs := await querySnapshot in
             setReviews (sorted_of docs) >>
             setStats (fun prev =>
               {| totalReviews := count_of docs;
                  averageRating := average_of docs;
                  linkClicks := linkClicks prev;
                  responseRate := responseRate prev;
                  ratingDistribution := distribution_of docs |})
         end)
        (fun e => console_error "Error fetching data:" e)
        (setLoading false)
  | None => navigate "/login"
  end.

(** [calculatePercentage], with every divisor it divides by recorded
    next to the value. *)
Definition divide (a b : Z) : number * list Z :=
  (PrimFloat.div (of_Z a) (of_Z b), [b]).

Definition calculatePercentage_traced (st : Stats) (count : Z)
  : number * list Z :=
  if 0 <? totalReviews st then
    let '(q, divisors) := divide count (totalReviews st) in
    (Math_round (PrimFloat.mul q 100), divisors)
  else (0%float, []).

Definition calculatePercentage (st : Stats) (count : Z) : number :=
  fst (calculatePercentage_traced st count).

(** *** What the page renders from its state *)

Inductive BadgeColor : Type := Green | Blue | Yellow | Red | Gray.

Record Badge : Type := { badge_color : BadgeColor; badge_text : string }.

Definition getStatusBadge (status : string) (replied : bool) : Badge :=
  if replied then {| badge_color := Green; badge_text := "Replied" |}
  else if String.eqb status "published"
       then {| badge_color := Blue; badge_text := "Published" |}
  else if String.eqb status "pending"
       then {| badge_color := Yellow; badge_text := "Pending" |}
  else if String.eqb status "rejected"
       then {| badge_color := Red; badge_text := "Rejected" |}
  else {| badge_color := Gray; badge_text := status |}.

(** [[...Array(5)].map((_, i) => i < review.rating)]: which of the five
    stars of a review are filled. *)
Definition reviewStars (r : Review) : list bool :=
  map (fun i : nat => Z.of_nat i <? rating r) (seq 0 5).

(** [[...Array(5)].map((_, i) => i < Math.floor(stats.averageRating))]. *)
Definition averageStars (st : Stats) : list bool :=
  map (fun i : nat =>
         PrimFloat.ltb (of_Z (Z.of_nat i)) (Math_floor (averageRating st)))
    (seq 0 5).

(** One entry of "Recent Reviews" (lines 326-358); [row_seconds] is the
    argument given to [formatDate], [row_branch] the branch line when
    [branchname] is not empty. *)
Record ReviewRow : Type := {
  row_key : string;
  row_name : string;
  row_seconds : Z;
  row_badge : Badge;
  row_stars : list bool;
  row_text : string;
  row_branch : option string
}.

Definition renderReview (r : Review) : ReviewRow := {|
  row_key := id r;
  row_name := name r;
  row_seconds := createdAt r;
  row_badge := getStatusBadge (status r) (replied r);
  row_stars := reviewStars r;
  row_text := review r;
  row_branch := if String.eqb (branchname r) "" then None else Some (branchname r)
|}.

Inductive RecentReviews : Type :=
| NoReviewsYet
| Rows (rows : list ReviewRow).

(** [reviews.length > 0 ? reviews.slice(0, 5).map(...) : "No reviews yet"]. *)
Definition renderRecent (p : Page) : RecentReviews :=
  if (0 <? length (reviews p))%nat
  then Rows (map renderReview (take 5 (reviews p)))
  else NoReviewsYet.

(** One line of "Rating Distribution" (lines 380-400). *)
Record DistributionRow : Type := {
  stars : Z;
  row_count : Z;
  percentage : number
}.

Definition renderDistribution (st : Stats) : list DistributionRow :=
  imap (fun index count =>
          {| stars := 5 - Z.of_nat index;
             row_count := count;
             percentage := calculatePercentage st count |})
    (ratingDistribution st).

(** The heading line (lines 259-261). *)
Definition welcomeText (p : Page) : string :=
  if String.eqb (businessName p) "" then "Welcome back"
  else "Welcome back, " ++ businessName p.

End Dashboard.

(** ** Notions used to state the properties *)

(** The access the sidebar's derived state grants: an active
    subscription or a running trial. *)
Definition derivedAccess (st : Sidebar.State) : bool :=
  Subscription.isActive (Sidebar.subscription st)
  || Trial.isTrial (Sidebar.trialInfo st).

(** The access rule the guard implements, read off a user record. *)
Definition guardRule (userData : UserData) (now : Z) : bool :=
  truthy_bool (subscriptionActive userData)
  || match trialEndDate userData with
     | TsTimestamp millis => now <? millis
     | _ => false
     end.

(** A timestamp field the guard can read: absent, or a store timestamp. *)
Definition convertible (f : TsField) : Prop :=
  f = TsMissing \/ exists millis, f = TsTimestamp millis.

Definition sumZ (l : list Z) : Z := foldr Z.add 0 l.

(** The records whose stored rating is exactly [r]. *)
Definition ratedWith (r : Z) (doc : ReviewDoc) : bool :=
  match data_rating doc with
  | Some x => x =? r
  | None => false
  end.

(** What one record adds to the bucket of the rating [r]. *)
Definition bump (r : Z) (doc : ReviewDoc) : Z :=
  if ratedWith r doc then 1 else 0.

Definition countRated (r : Z) (docs : list ReviewDoc) : Z :=
  Z.of_nat (length (List.filter (ratedWith r) docs)).

(** A record whose rating is one of the five stars. *)
Definition starRated (doc : ReviewDoc) : Prop :=
  exists r, data_rating doc = Some r /\ 1 <= r <= 5.

Definition countStarRated (docs : list ReviewDoc) : Z :=
  Z.of_nat (length (List.filter
                      (fun doc => Dashboard.inBucketRange (data_rating doc)) docs)).

(** The five buckets as the specification describes them, 5 stars
    first. *)
Definition tally (docs : list ReviewDoc) : list Z :=
  [countRated 5 docs; countRated 4 docs; countRated 3 docs;
   countRated 2 docs; countRated 1 docs].

Definition newerFirst (a b : Dashboard.Review) : Prop :=
  Dashboard.createdAt b <= Dashboard.createdAt a.

(** Bounded checks of the double arithmetic against exact arithmetic. *)

(** [d] whole days, one millisecond less and one more, are [d], [d] and
    [d + 1] days left. *)
Definition ceilingAtDay (d : nat) : bool :=
  let ms := Z.of_nat d * Sidebar.msPerDay in
  match integral (Sidebar.daysUntil ms 0),
        integral (Sidebar.daysUntil (ms - 1) 0),
        integral (Sidebar.daysUntil (ms + 1) 0) with
  | Some a, Some b, Some c =>
      (a =? Z.of_nat d) && (b =? Z.of_nat d) && (c =? Z.of_nat d + 1)
  | _, _, _ => false
  end.

(** The percentage of [count] in [total] rounded half up, on exact
    numbers: [floor (100 * count / total + 1/2)]. *)
Definition roundedShare (total count : Z) : Z :=
  (200 * count + total) / (2 * total).

(** A shift record of the floating-point operations locates the
    rational [N / D]: its mantissa is the integer part, the round bit
    tells whether the rest reaches one half, the sticky bit whether
    anything lies beside zero and one half. *)
Definition located (N D : Z) (mrs : shr_record) : Prop :=
  0 < D /\ 0 <= shr_m mrs
  /\ shr_m mrs * D <= N < (shr_m mrs + 1) * D
  /\ shr_r mrs = (D <=? 2 * (N - shr_m mrs * D))
  /\ shr_s mrs = negb (N - shr_m mrs * D =? 0)
                 && negb (2 * (N - shr_m mrs * D) =? D).

(** Sample documents. *)
Definition sampleUser (active : option bool) (subEnd trialEnd : TsField)
  : UserData :=
  {| businessInfo := None; trialEndDate := trialEnd;
     subscriptionActive := active; subscriptionEndDate := subEnd;
     subscriptionPlan := Some "Pro" |}.

Definition sampleReview (stars seconds : option Z) : ReviewDoc :=
  {| doc_id := "r"; data_name := None; data_rating := stars;
     data_review := None; data_message := None; data_createdAt := seconds;
     data_status := None; data_branchname := None; data_replied := None |}.

Definition statsWith (total : Z) : Dashboard.Stats :=
  {| Dashboard.totalReviews := total; Dashboard.averageRating := 0%float;
     Dashboard.linkClicks := 0; Dashboard.responseRate := 0;
     Dashboard.ratingDistribution := [0; 0; 0; 0; 0] |}.

(** Notions for the properties of the rendering. *)

(** A user record both of whose dates can be read without a throw. *)
Definition readable (userData : UserData) : Prop :=
  trialEndDate userData <> TsFaulty /\ subscriptionEndDate userData <> TsFaulty.

(** The three standings a status check can store. *)
Inductive Standing : Type := Subscribed | OnTrial | Expired.

Definition standingFlags (s : Standing) : bool * bool * bool :=
  match s with
  | Subscribed => (true, false, false)
  | OnTrial => (false, true, false)
  | Expired => (false, false, true)
  end.

Definition isSome {A : Type} (o : option A) : bool :=
  match o with Some _ => true | None => false end.

Definition activeEntries (es : list Sidebar.Element) : nat :=
  length (List.filter
            (fun e => Sidebar.isActiveStyle (Sidebar.style_of e)) es).

Definition activeLinks (ls : list Sidebar.LinkElement) : nat :=
  length (List.filter
            (fun l => Sidebar.isActiveStyle (Sidebar.link_style l)) ls).

Definition settingsPaths : list string :=
  ["/components/business/settings/account";
   "/components/business/settings/location";
   "/components/business/settings/businessusers"].

Definition filledStars (flags : list bool) : nat :=
  length (List.filter (fun b : bool => b) flags).

(** Whether the loader has to send the visitor to the login page. *)
Definition needsLogin (user : option string)
    (userDoc : Fetched (option UserData)) : bool :=
  match user, userDoc with
  | None, _ => true
  | Some _, FetchOk None => true
  | Some _, _ => false
  end.

(** A rating cut to the five stars of a row. *)
Definition clampStars (rating : Z) : nat := Z.to_nat (Z.min 5 (Z.max 0 rating)).

(** ** Proof steps shared below *)

(** Unfolds the handlers down to the state they return. *)
Ltac run_effects :=
  cbv [Sidebar.checkUserStatus Sidebar.checkUserStatus_try tryCatch
       tryCatchFinally andThen await pure throw update Sidebar.readDate
       Sidebar.dateOf Sidebar.laterThan Sidebar.setTrialInfo
       Sidebar.setSubscription
       Sidebar.console_write Sidebar.onAuthStateChanged
       Dashboard.checkSubscription Dashboard.guardHandler
       Dashboard.loadHandler Dashboard.navigate Dashboard.console_error
       Dashboard.setBusinessName Dashboard.setLoading Dashboard.setReviews
       Dashboard.setStats] in *.

(** Equality of two lists of integers, entry by entry. *)
Ltac bucketwise :=
  repeat (apply (f_equal2 (@cons Z)); [lia|]); reflexivity.

(** ** The status deriver of the sidebar *)

Section StatusDeriver.

Variables (userData : UserData) (now : Z) (st : Sidebar.State).
Variables (trialEnd subscriptionEnd : option Date).
Hypothesis trial_read :
  Sidebar.dateOf (trialEndDate userData) = Returned trialEnd.
Hypothesis subscription_read :
  Sidebar.dateOf (subscriptionEndDate userData) = Returned subscriptionEnd.

Lemma planName_or_string :
  match subscriptionPlan userData with
  | Some plan => if truthy_string (Some plan) then plan else ""
  | None => ""
  end = or_string (subscriptionPlan userData) "".
Proof.
  destruct (subscriptionPlan userData) as [plan|]; [|reflexivity].
  unfold truthy_string, or_string.
  destruct (String.eqb plan ""); reflexivity.
Qed.

Lemma run_subscribed (subEnd : Date) :
  truthy_bool (subscriptionActive userData) = true ->
  subscriptionEnd = Some subEnd ->
  snd (Sidebar.checkUserStatus (FetchOk (Some userData)) now st)
  = {| Sidebar.trialInfo :=
         {| Trial.daysLeft := 0%float; Trial.isTrial := false;
            Trial.trialEnded := false; Trial.hasSubscription := true |};
       Sidebar.subscription :=
         {| Subscription.planName := or_string (subscriptionPlan userData) "";
            Subscription.daysLeft := Sidebar.daysUntilDate subEnd now;
            Subscription.endDate := Some subEnd;
            Subscription.isActive := true |};
       Sidebar.console := Sidebar.console st |}.
Proof.
  intros Hactive Hend.
  unfold Sidebar.checkUserStatus, tryCatch, Sidebar.checkUserStatus_try,
    andThen, await, pure, Sidebar.readDate.
  rewrite trial_read, subscription_read, Hactive, Hend, planName_or_string.
  reflexivity.
Qed.

Lemma run_unsubscribed :
  truthy_bool (subscriptionActive userData) = false \/ subscriptionEnd = None ->
  snd (Sidebar.checkUserStatus (FetchOk (Some userData)) now st)
  = {| Sidebar.trialInfo :=
         match trialEnd with
         | Some d =>
             if Sidebar.laterThan d now
             then {| Trial.daysLeft := Sidebar.daysUntilDate d now;
                     Trial.isTrial := true; Trial.trialEnded := false;
                     Trial.hasSubscription := false |}
             else {| Trial.daysLeft := 0%float; Trial.isTrial := false;
                     Trial.trialEnded := true;
                     Trial.hasSubscription := false |}
         | None => {| Trial.daysLeft := 0%float; Trial.isTrial := false;
                      Trial.trialEnded := true;
                      Trial.hasSubscription := false |}
         end;
       Sidebar.subscription := Sidebar.noSubscription;
       Sidebar.console := Sidebar.console st |}.
Proof.
  intros Hno.
  unfold Sidebar.checkUserStatus, tryCatch, Sidebar.checkUserStatus_try,
    andThen, await, pure, Sidebar.readDate.
  rewrite trial_read, subscription_read.
  assert (Hbranch :
    match truthy_bool (subscriptionActive userData), subscriptionEnd with
    | true, Some _ => false
    | _, _ => true
    end = true).
  { destruct Hno as [-> | ->]; [reflexivity|].
    destruct (truthy_bool (subscriptionActive userData)); reflexivity. }
  destruct (truthy_bool (subscriptionActive userData)),
    subscriptionEnd as [subEnd|];
    try discriminate Hbranch;
    destruct trialEnd as [trialDate|];
    try destruct (Sidebar.laterThan trialDate now);
    reflexivity.
Qed.

End StatusDeriver.

Lemma msPerDay_number : of_Z Sidebar.msPerDay = 86400000%float.
Proof. vm_compute. reflexivity. Qed.

Lemma daysUntil_formula (endTime now : Z) :
  Sidebar.daysUntil endTime now
  = Math_ceil (PrimFloat.div (of_Z (endTime - now)) 86400000).
Proof. unfold Sidebar.daysUntil. rewrite msPerDay_number. reflexivity. Qed.

Lemma daysUntil_36h (now : Z) :
  Sidebar.daysUntil (now + 36 * 3600 * 1000) now = 2%float.
Proof.
  unfold Sidebar.daysUntil. rewrite Z.add_simpl_l. vm_compute. reflexivity.
Qed.

Lemma daysUntil_12h (now : Z) :
  Sidebar.daysUntil (now + 12 * 3600 * 1000) now = 1%float.
Proof.
  unfold Sidebar.daysUntil. rewrite Z.add_simpl_l. vm_compute. reflexivity.
Qed.

(** For every whole number of days up to ten years the double quotient
    rounds up as the exact quotient does, also one millisecond before
    and after the day boundary. *)
Lemma daysUntil_ceiling_ten_years :
  forallb ceilingAtDay (seq 1 3660) = true.
Proof. vm_compute. reflexivity. Qed.

(** Past end dates give zero or negative days. *)
Lemma daysUntil_past :
  Sidebar.daysUntil 0 0 = 0%float
  /\ Sidebar.daysUntil (- 3600 * 1000) 0 = (-0)%float
  /\ Sidebar.daysUntil (- 36 * 3600 * 1000) 0 = (-1)%float.
Proof. repeat split; vm_compute; reflexivity. Qed.

Lemma nan_sub_l (x : number) : PrimFloat.sub PrimFloat.nan x = PrimFloat.nan.
Proof. apply Prim2SF_inj. rewrite sub_spec. reflexivity. Qed.

Lemma nan_div_by (x : number) : PrimFloat.div PrimFloat.nan x = PrimFloat.nan.
Proof. apply Prim2SF_inj. rewrite div_spec. reflexivity. Qed.

(** The days left until an Invalid Date are NaN. *)
Lemma daysUntilDate_invalid (now : Z) :
  Sidebar.daysUntilDate InvalidDate now = PrimFloat.nan.
Proof.
  unfold Sidebar.daysUntilDate. rewrite nan_sub_l, nan_div_by. reflexivity.
Qed.

(** A timestamp field other than [{seconds: 0}] is read as a date
    exactly when it is present. *)
Lemma dateOf_present (f : TsField) (d : option Date) :
  f <> TsSeconds 0 -> Sidebar.dateOf f = Returned d ->
  (d = None <-> f = TsMissing).
Proof.
  intros Hepoch. destruct f as [|millis|seconds|]; cbn; intros [= <-].
  - split; reflexivity.
  - split; discriminate.
  - destruct (Z.eqb_spec seconds 0) as [-> | _]; [congruence|].
    split; discriminate.
Qed.

(** C1, as the code has it. A timestamp field is read as a [Date]: a
    store timestamp as the date of its [toDate()], a record
    [{seconds: s}] as [new Date(s * 1000)], which is an Invalid Date
    beyond 8.64e15 ms; the record [{seconds: 0}] is left aside. On an
    existing user document [checkUserStatus] then follows the
    precedence subscription, running trial, ended trial. With [days e]
    standing for [Math.ceil((e - now) / 86_400_000)]:
    - a truthy [subscriptionActive] with a subscription end date
      present stores an active subscription with the plan name, the end
      date and [days e] days left for a date at [e] (NaN for an Invalid
      Date), and clears the trial ([daysLeft = 0], not a trial, not
      ended, [hasSubscription]);
    - otherwise a valid trial end date at [t] later than [now] stores a
      running trial with [days t] days left and no subscription;
    - otherwise (no trial end date, an Invalid Date, or a date not later
      than [now]) it stores an ended trial with [daysLeft = 0] and no
      subscription.
    An end date 36 hours ahead gives 2 days, 12 hours ahead gives 1. *)
Theorem status_deriver_precedence
    (userData : UserData) (now : Z) (st : Sidebar.State)
    (trialEnd subscriptionEnd : option Date) :
  trialEndDate userData <> TsSeconds 0 ->
  subscriptionEndDate userData <> TsSeconds 0 ->
  Sidebar.dateOf (trialEndDate userData) = Returned trialEnd ->
  Sidebar.dateOf (subscriptionEndDate userData) = Returned subscriptionEnd ->
  let st' := snd (Sidebar.checkUserStatus (FetchOk (Some userData)) now st) in
  let days := fun e : Z =>
    Math_ceil (PrimFloat.div (of_Z (e - now)) 86400000) in
  let daysTo := fun d : Date =>
    match d with
    | ValidDate e => days e
    | InvalidDate => PrimFloat.nan
    end in
  let unsubscribed :=
    truthy_bool (subscriptionActive userData) = false
    \/ subscriptionEndDate userData = TsMissing in
  (forall d,
      truthy_bool (subscriptionActive userData) = true ->
      subscriptionEnd = Some d ->
      Sidebar.subscription st'
      = {| Subscription.planName := or_string (subscriptionPlan userData) "";
           Subscription.daysLeft := daysTo d;
           Subscription.endDate := Some d;
           Subscription.isActive := true |}
      /\ Sidebar.trialInfo st'
         = {| Trial.daysLeft := 0%float; Trial.isTrial := false;
              Trial.trialEnded := false; Trial.hasSubscription := true |})
  /\ (forall t,
        unsubscribed -> trialEnd = Some (ValidDate t) -> now < t ->
        Sidebar.trialInfo st'
        = {| Trial.daysLeft := days t; Trial.isTrial := true;
             Trial.trialEnded := false; Trial.hasSubscription := false |}
        /\ Subscription.isActive (Sidebar.subscription st') = false)
  /\ (unsubscribed ->
      trialEndDate userData = TsMissing
      \/ trialEnd = Some InvalidDate
      \/ (exists t, trialEnd = Some (ValidDate t) /\ t <= now) ->
      Sidebar.trialInfo st'
      = {| Trial.daysLeft := 0%float; Trial.isTrial := false;
           Trial.trialEnded := true; Trial.hasSubscription := false |}
      /\ Subscription.isActive (Sidebar.subscription st') = false)
  /\ (subscriptionEnd = None <-> subscriptionEndDate userData = TsMissing)
  /\ (trialEnd = None <-> trialEndDate userData = TsMissing)
  /\ days (now + 36 * 3600 * 1000) = 2%float
  /\ days (now + 12 * 3600 * 1000) = 1%float.
Proof.
  intros Htrial0 Hsub0 Htrial Hsub st' days daysTo unsubscribed.
  assert (Hdays : forall e, days e = Sidebar.daysUntil e now)
    by (intros e; symmetry; apply daysUntil_formula).
  assert (HdaysTo : forall d, daysTo d = Sidebar.daysUntilDate d now).
  { intros [e|]; cbn [daysTo]; [apply Hdays|].
    symmetry. apply daysUntilDate_invalid. }
  pose proof (dateOf_present _ _ Hsub0 Hsub) as Hsubscribed.
  pose proof (dateOf_present _ _ Htrial0 Htrial) as Hpresent.
  assert (Hno : unsubscribed ->
                truthy_bool (subscriptionActive userData) = false
                \/ subscriptionEnd = None).
  { intros [Hfalse | Hmissing]; [now left | right]. now apply Hsubscribed. }
  split; [|split; [|split; [|split; [|split; [|split]]]]].
  - intros d Hactive Hend. subst st'.
    rewrite (run_subscribed _ now st _ _ Htrial Hsub d Hactive Hend).
    rewrite HdaysTo. split; reflexivity.
  - intros t Hun Hend Hlt. subst st'.
    rewrite (run_unsubscribed _ now st _ _ Htrial Hsub (Hno Hun)).
    cbn [Sidebar.trialInfo Sidebar.subscription]. subst trialEnd.
    cbn [Sidebar.laterThan Sidebar.daysUntilDate].
    apply Z.ltb_lt in Hlt. rewrite Hlt, Hdays. split; reflexivity.
  - intros Hun Hended. subst st'.
    rewrite (run_unsubscribed _ now st _ _ Htrial Hsub (Hno Hun)).
    cbn [Sidebar.trialInfo Sidebar.subscription].
    destruct Hended as [Hmissing | [-> | [t [-> Hle]]]].
    + apply Hpresent in Hmissing. rewrite Hmissing. split; reflexivity.
    + split; reflexivity.
    + cbn [Sidebar.laterThan]. apply Z.ltb_ge in Hle. rewrite Hle.
      split; reflexivity.
  - exact Hsubscribed.
  - exact Hpresent.
  - rewrite Hdays. apply daysUntil_36h.
  - rewrite Hdays. apply daysUntil_12h.
Qed.

(** The precedence at work on a record that has both an active
    subscription ending in 36 hours and a running trial. *)
Lemma status_deriver_precedence_witness :
  let u := sampleUser (Some true)
             (TsTimestamp (1700000000000 + 36 * 3600 * 1000))
             (TsSeconds 1800000000) in
  let st' := snd (Sidebar.checkUserStatus (FetchOk (Some u)) 1700000000000
                    Sidebar.initial) in
  Sidebar.subscription st'
  = {| Subscription.planName := "Pro"; Subscription.daysLeft := 2%float;
       Subscription.endDate :=
         Some (ValidDate (1700000000000 + 36 * 3600 * 1000));
       Subscription.isActive := true |}
  /\ Sidebar.trialInfo st'
     = {| Trial.daysLeft := 0%float; Trial.isTrial := false;
          Trial.trialEnded := false; Trial.hasSubscription := true |}.
Proof.
  intros u st'.
  assert (Hseconds : TsSeconds 1800000000 <> TsSeconds 0) by discriminate.
  assert (Hstamp : TsTimestamp (1700000000000 + 36 * 3600 * 1000) <> TsSeconds 0)
    by discriminate.
  destruct (status_deriver_precedence u 1700000000000 Sidebar.initial
              (Some (ValidDate 1800000000000))
              (Some (ValidDate (1700000000000 + 36 * 3600 * 1000)))
              Hseconds Hstamp eq_refl eq_refl) as [Hsub [_ [_ [_ [_ [H36 _]]]]]].
  destruct (Hsub _ eq_refl eq_refl) as [Hs Ht].
  split; [|exact Ht].
  subst st' u. rewrite Hs. cbv beta iota. rewrite H36. reflexivity.
Defined.

(** C1, as stated, fails on dates the handler cannot keep. A trial end
    [{seconds: 10^13}] is present and later than [now], yet the [Date]
    built from it is invalid and the handler stores an ended trial; as
    the end of an active subscription it gives NaN days left instead of
    115721065. And a subscription end [{seconds: 0}] is present, yet
    the handler reads it as absent and stores no subscription. *)
Lemma far_future_trial_is_ended :
  let now := 1700000000000 in
  let run u := snd (Sidebar.checkUserStatus (FetchOk (Some u)) now
                      Sidebar.initial) in
  let trial := run (sampleUser None TsMissing (TsSeconds 10000000000000)) in
  let paid := run (sampleUser (Some true) (TsSeconds 10000000000000) TsMissing) in
  let epoch := run (sampleUser (Some true) (TsSeconds 0) TsMissing) in
  now < 10000000000000 * 1000
  /\ Trial.isTrial (Sidebar.trialInfo trial) = false
  /\ Trial.trialEnded (Sidebar.trialInfo trial) = true
  /\ Subscription.isActive (Sidebar.subscription paid) = true
  /\ Subscription.daysLeft (Sidebar.subscription paid) = PrimFloat.nan
  /\ Math_ceil (PrimFloat.div (of_Z (10000000000000 * 1000 - now)) 86400000)
     = 115721065%float
  /\ Subscription.isActive (Sidebar.subscription epoch) = false
  /\ Trial.hasSubscription (Sidebar.trialInfo epoch) = false.
Proof. cbv zeta. repeat split; vm_compute; reflexivity. Qed.

(** The display of the three standings: an active subscription ending
    in 36 hours, a trial ending in 12 hours ("Last day"), a trial that
    ended an hour ago. *)
Lemma status_display_examples :
  let now := 1700000000000 in
  let run u := snd (Sidebar.checkUserStatus (FetchOk (Some u)) now Sidebar.initial) in
  let paid := run (sampleUser (Some true)
                     (TsTimestamp (now + 36 * 3600 * 1000)) TsMissing) in
  let trial := run (sampleUser (Some false) TsMissing
                      (TsTimestamp (now + 12 * 3600 * 1000))) in
  let ended := run (sampleUser (Some false) TsMissing
                      (TsTimestamp (now - 3600 * 1000))) in
  Sidebar.subscriptionText paid = Some (Sidebar.Counted 2%float " days remaining")
  /\ Sidebar.trialText paid = None
  /\ Sidebar.trialText trial = Some (Sidebar.Fixed "Last day")
  /\ Trial.daysLeft (Sidebar.trialInfo trial) = 1%float
  /\ Trial.trialEnded (Sidebar.trialInfo ended) = true
  /\ Sidebar.trialText ended = None
  /\ Sidebar.subscriptionText ended = None.
Proof. repeat split; vm_compute; reflexivity. Qed.

(** ** Failures of the sidebar's status check *)

(** Whatever the [try] block does before it throws, it has written
    nothing yet. *)
Lemma checkUserStatus_try_throws_early userSnap now st e st_thrown :
  Sidebar.checkUserStatus_try userSnap now st = (Thrown e, st_thrown) ->
  st_thrown = st.
Proof.
  destruct userSnap as [|[userData|]]; run_effects.
  - now intros [= _ <-].
  - destruct (trialEndDate userData); cbv beta iota;
      try (now intros [= _ <-]);
      destruct (subscriptionEndDate userData); cbv beta iota;
      try (now intros [= _ <-]);
      destruct (truthy_bool (subscriptionActive userData));
      repeat match goal with
             | |- context [if ?c then _ else _] => destruct c
             end; cbv beta iota; discriminate.
  - discriminate.
Qed.

(** C10. When the [try] block of [checkUserStatus] throws (the fetch is
    rejected, or reading a date throws), the call still returns
    normally, [trialInfo] and [subscription] are what they were before
    the call, and the only trace is one [console.error] entry. *)
Theorem failed_status_check_keeps_state
    (userSnap : Fetched (option UserData)) (now : Z)
    (st st_thrown : Sidebar.State) (e : Exn) :
  Sidebar.checkUserStatus_try userSnap now st = (Thrown e, st_thrown) ->
  let result := Sidebar.checkUserStatus userSnap now st in
  fst result = Returned tt
  /\ Sidebar.trialInfo (snd result) = Sidebar.trialInfo st
  /\ Sidebar.subscription (snd result) = Sidebar.subscription st
  /\ Sidebar.console (snd result)
     = (Sidebar.console st ++ [ConsoleError "Error checking user status:" e])%list.
Proof.
  intros Hthrow result.
  pose proof (checkUserStatus_try_throws_early _ _ _ _ _ Hthrow) as ->.
  subst result. unfold Sidebar.checkUserStatus, tryCatch.
  rewrite Hthrow. repeat split.
Qed.

(** A trial end date whose [toDate] throws, met after a paid state. *)
Lemma failed_status_check_keeps_state_witness :
  let paid := snd (Sidebar.checkUserStatus
                     (FetchOk (Some (sampleUser (Some true)
                                       (TsTimestamp 1700086400000) TsMissing)))
                     1700000000000 Sidebar.initial) in
  let result := Sidebar.checkUserStatus
                  (FetchOk (Some (sampleUser (Some true) TsMissing TsFaulty)))
                  1700000000000 paid in
  Subscription.isActive (Sidebar.subscription (snd result)) = true
  /\ Sidebar.trialInfo (snd result) = Sidebar.trialInfo paid
  /\ Sidebar.subscription (snd result) = Sidebar.subscription paid.
Proof.
  intros paid result.
  destruct (failed_status_check_keeps_state
              (FetchOk (Some (sampleUser (Some true) TsMissing TsFaulty)))
              1700000000000 paid paid TypeError eq_refl)
    as [_ [Htrial [Hsub _]]].
  fold result in Htrial, Hsub.
  split; [|split]; [|exact Htrial|exact Hsub].
  rewrite Hsub. reflexivity.
Defined.

(** ** The access guard of the dashboard *)

(** The guard never writes before it answers. *)
Lemma checkSubscription_convertible (userData : UserData) (now : Z)
    (page : Dashboard.Page) :
  truthy_bool (subscriptionActive userData) = true
  \/ convertible (trialEndDate userData) ->
  Dashboard.checkSubscription (FetchOk (Some userData)) now page
  = (Returned (guardRule userData now), page).
Proof.
  intros Hok. unfold guardRule. run_effects.
  destruct (truthy_bool (subscriptionActive userData)); [reflexivity|].
  destruct Hok as [Hactive | [-> | [millis ->]]];
    [discriminate | reflexivity |].
  cbn [orb]. destruct (now <? millis); reflexivity.
Qed.

Lemma guardRule_spec (userData : UserData) (now : Z) :
  guardRule userData now = true
  <-> truthy_bool (subscriptionActive userData) = true
      \/ exists millis, trialEndDate userData = TsTimestamp millis /\ now < millis.
Proof.
  unfold guardRule. rewrite orb_true_iff. split.
  - intros [Hactive | Htrial]; [now left | right].
    destruct (trialEndDate userData) as [|millis| |]; try discriminate.
    exists millis. split; [reflexivity | now apply Z.ltb_lt].
  - intros [Hactive | [millis [-> Hlt]]]; [now left | right].
    now apply Z.ltb_lt.
Qed.

(** Whenever the sidebar derives access from a record the guard can
    read, the guard grants it too. *)
Lemma derivedAccess_guardRule (userData : UserData) (now : Z)
    (st : Sidebar.State) :
  convertible (trialEndDate userData) ->
  subscriptionEndDate userData <> TsFaulty ->
  derivedAccess (snd (Sidebar.checkUserStatus (FetchOk (Some userData)) now st))
  = true ->
  guardRule userData now = true.
Proof.
  intros Hconv Hsub. unfold derivedAccess, guardRule. run_effects.
  destruct (truthy_bool (subscriptionActive userData)); [reflexivity|].
  cbn [orb].
  destruct Hconv as [-> | [millis ->]];
    destruct (subscriptionEndDate userData) as [|subMillis|seconds|];
    try (exfalso; apply Hsub; reflexivity); cbv beta iota;
    repeat match goal with
           | |- context [if ?c then _ else _] => destruct c
           end; cbn; congruence.
Qed.

(** C3, as the code has it. For a user record whose [trialEndDate] is
    absent or a store timestamp (or whose [subscriptionActive] is
    truthy), the guard grants access exactly when [subscriptionActive]
    is truthy, with or without a [subscriptionEndDate], or the trial end
    is later than [now]; when it does not grant access it requests the
    pricing page, and it requests nothing otherwise. The access the
    sidebar derives from such a record implies the guard's. *)
Theorem guard_access_rule
    (userData : UserData) (now : Z) (uid : string) (page : Dashboard.Page) :
  truthy_bool (subscriptionActive userData) = true
  \/ convertible (trialEndDate userData) ->
  let granted := guardRule userData now in
  Dashboard.checkSubscription (FetchOk (Some userData)) now page
  = (Returned granted, page)
  /\ (granted = true
      <-> truthy_bool (subscriptionActive userData) = true
          \/ exists millis,
               trialEndDate userData = TsTimestamp millis /\ now < millis)
  /\ Dashboard.guardHandler (Some uid) (FetchOk (Some userData)) now page
     = (Returned tt,
        if granted then page
        else {| Dashboard.businessName := Dashboard.businessName page;
                Dashboard.loading := Dashboard.loading page;
                Dashboard.reviews := Dashboard.reviews page;
                Dashboard.stats := Dashboard.stats page;
                Dashboard.navigations :=
                  (Dashboard.navigations page ++ ["/pricing"])%list;
                Dashboard.console := Dashboard.console page |})
  /\ (forall st,
        convertible (trialEndDate userData) ->
        subscriptionEndDate userData <> TsFaulty ->
        derivedAccess
          (snd (Sidebar.checkUserStatus (FetchOk (Some userData)) now st))
        = true ->
        granted = true).
Proof.
  intros Hok granted.
  pose proof (checkSubscription_convertible userData now page Hok) as Hcheck.
  split; [exact Hcheck|]. split; [apply guardRule_spec|]. split.
  - unfold Dashboard.guardHandler, andThen. rewrite Hcheck.
    fold granted. destruct granted; reflexivity.
  - intros st. apply derivedAccess_guardRule.
Qed.

(** An expired trial sends an authenticated user to the pricing page. *)
Lemma guard_access_rule_witness :
  Dashboard.navigations
    (snd (Dashboard.guardHandler (Some "uid")
            (FetchOk (Some (sampleUser None TsMissing
                              (TsTimestamp 1699996400000))))
            1700000000000 Dashboard.initial))
  = ["/pricing"].
Proof.
  destruct (guard_access_rule
              (sampleUser None TsMissing (TsTimestamp 1699996400000))
              1700000000000 "uid" Dashboard.initial
              (or_intror (or_intror (ex_intro _ 1699996400000 eq_refl))))
    as [_ [_ [Hnav _]]].
  rewrite Hnav. reflexivity.
Defined.

(** C3, as stated, fails: a record with [subscriptionActive] and no
    [subscriptionEndDate] (and no trial) passes the guard, which
    requests no redirect, while the state the sidebar derives from it
    has neither an active subscription nor a trial. *)
Lemma guard_grants_without_end_date :
  let u := sampleUser (Some true) TsMissing TsMissing in
  let now := 1700000000000 in
  fst (Dashboard.checkSubscription (FetchOk (Some u)) now Dashboard.initial)
  = Returned true
  /\ Dashboard.navigations
       (snd (Dashboard.guardHandler (Some "uid") (FetchOk (Some u)) now
               Dashboard.initial)) = []
  /\ derivedAccess
       (snd (Sidebar.checkUserStatus (FetchOk (Some u)) now Sidebar.initial))
     = false.
Proof. repeat split. Qed.

(** ** A user document that does not exist *)

(** C5, as the code has it. When the fetched user document does not
    exist: the dashboard's loader requests the login page, exactly as it
    does for a visitor who is not signed in, and clears [loading]; the
    access guard counts the user as having no access and requests the
    pricing page; the sidebar writes one console line and leaves its
    state as it was, requesting nothing. *)
Theorem missing_document_handling
    (uid : string) (now : Z) (querySnapshot : Fetched (list ReviewDoc))
    (page : Dashboard.Page) (st : Sidebar.State) :
  Dashboard.loadHandler (Some uid) (FetchOk None) querySnapshot page
  = (Returned tt,
     {| Dashboard.businessName := Dashboard.businessName page;
        Dashboard.loading := false;
        Dashboard.reviews := Dashboard.reviews page;
        Dashboard.stats := Dashboard.stats page;
        Dashboard.navigations := (Dashboard.navigations page ++ ["/login"])%list;
        Dashboard.console := Dashboard.console page |})
  /\ Dashboard.navigations
       (snd (Dashboard.loadHandler (Some uid) (FetchOk None) querySnapshot page))
     = Dashboard.navigations
         (snd (Dashboard.loadHandler None (FetchOk None) querySnapshot page))
  /\ Dashboard.guardHandler (Some uid) (FetchOk None) now page
     = (Returned tt,
        {| Dashboard.businessName := Dashboard.businessName page;
           Dashboard.loading := Dashboard.loading page;
           Dashboard.reviews := Dashboard.reviews page;
           Dashboard.stats := Dashboard.stats page;
           Dashboard.navigations :=
             (Dashboard.navigations page ++ ["/pricing"])%list;
           Dashboard.console := Dashboard.console page |})
  /\ Sidebar.onAuthStateChanged (Some uid) (FetchOk None) now st
     = (Returned tt,
        {| Sidebar.trialInfo := Sidebar.trialInfo st;
           Sidebar.subscription := Sidebar.subscription st;
           Sidebar.console :=
             (Sidebar.console st ++ [ConsoleLog "No user document found"])%list |}).
Proof. repeat split. Qed.

(** C5, as stated, fails: for a signed-in user without a document the
    guard's only navigation request is the pricing page, not the login
    page; and when the guard's fetch settles after the loader's on the
    same page, the pricing page is the last request made. *)
Lemma guard_sends_missing_document_to_pricing :
  let guard := Dashboard.guardHandler (Some "uid") (FetchOk None) 1700000000000 in
  let loader := Dashboard.loadHandler (Some "uid") (FetchOk None) (FetchOk []) in
  Dashboard.navigations (snd (guard Dashboard.initial)) = ["/pricing"]
  /\ ~ In "/login" (Dashboard.navigations (snd (guard Dashboard.initial)))
  /\ Dashboard.navigations (snd (guard (snd (loader Dashboard.initial))))
     = ["/login"; "/pricing"].
Proof.
  cbv zeta. split; [reflexivity|]. split; [|reflexivity].
  cbn. intros [H | []]. discriminate H.
Qed.

(** ** The two representations of a timestamp *)

(** The sidebar reads a record with whole seconds as the instant of the
    store timestamp, as long as the instant is within the range of
    [Date], except at the epoch, where the truthiness test on
    [seconds] drops the date. *)
Lemma dateOf_seconds (seconds : Z) :
  seconds <> 0 ->
  Z.abs (seconds * 1000) <= maxTime ->
  Sidebar.dateOf (TsSeconds seconds)
  = Sidebar.dateOf (TsTimestamp (seconds * 1000)).
Proof.
  intros Hnz Hrange. cbn. destruct (Z.eqb_spec seconds 0); [contradiction|].
  unfold newDate. now destruct (Z.leb_spec (Z.abs (seconds * 1000)) maxTime); [|lia].
Qed.

Lemma dateOf_seconds_epoch :
  Sidebar.dateOf (TsSeconds 0) = Returned None
  /\ Sidebar.dateOf (TsTimestamp (0 * 1000)) = Returned (Some (ValidDate 0)).
Proof. split; reflexivity. Qed.

(** [checkUserStatus] sees the two timestamp fields through [dateOf]
    only. *)
Lemma checkUserStatus_dateOf (u u' : UserData) (now : Z) (st : Sidebar.State) :
  Sidebar.dateOf (trialEndDate u) = Sidebar.dateOf (trialEndDate u') ->
  Sidebar.dateOf (subscriptionEndDate u) = Sidebar.dateOf (subscriptionEndDate u') ->
  subscriptionActive u = subscriptionActive u' ->
  subscriptionPlan u = subscriptionPlan u' ->
  Sidebar.checkUserStatus (FetchOk (Some u)) now st
  = Sidebar.checkUserStatus (FetchOk (Some u')) now st.
Proof.
  intros Htrial Hsub Hactive Hplan.
  unfold Sidebar.checkUserStatus, tryCatch, Sidebar.checkUserStatus_try,
    andThen, await, pure, Sidebar.readDate.
  now rewrite Htrial, Hsub, Hactive, Hplan.
Qed.

(** C6 on the code. A trial that ends at second 1_800_000_000, stored
    once as a store timestamp and once as a [{seconds}] record: the
    sidebar derives the same running trial from both, the guard grants
    access on the timestamp and throws a [TypeError] on the record
    (there is no [toDate] to call), so that it neither grants access nor
    redirects. *)
Theorem guard_rejects_seconds_record :
  let now := 1700000000000 in
  let asTimestamp := sampleUser None TsMissing (TsTimestamp (1800000000 * 1000)) in
  let asSeconds := sampleUser None TsMissing (TsSeconds 1800000000) in
  Sidebar.checkUserStatus (FetchOk (Some asSeconds)) now Sidebar.initial
  = Sidebar.checkUserStatus (FetchOk (Some asTimestamp)) now Sidebar.initial
  /\ Trial.isTrial
       (Sidebar.trialInfo
          (snd (Sidebar.checkUserStatus (FetchOk (Some asSeconds)) now
                  Sidebar.initial))) = true
  /\ Dashboard.guardHandler (Some "uid") (FetchOk (Some asTimestamp)) now
       Dashboard.initial
     = (Returned tt, Dashboard.initial)
  /\ Dashboard.guardHandler (Some "uid") (FetchOk (Some asSeconds)) now
       Dashboard.initial
     = (Thrown TypeError, Dashboard.initial).
Proof.
  intros now asTimestamp asSeconds.
  split; [|repeat split].
  apply checkUserStatus_dateOf; try reflexivity.
Qed.

(** ** Navigation entries after the trial has ended *)

Lemma isDisabled_expired (st : Sidebar.State) (link : Sidebar.NavLink) :
  Trial.trialEnded (Sidebar.trialInfo st) = true ->
  Subscription.isActive (Sidebar.subscription st) = false ->
  Sidebar.isDisabled st link = negb (String.eqb (Sidebar.name link) "Settings").
Proof. intros Hended Hinactive. unfold Sidebar.isDisabled. now rewrite Hended, Hinactive. Qed.

Lemma isDisabled_Settings (st : Sidebar.State) (link : Sidebar.NavLink) :
  Sidebar.name link = "Settings" -> Sidebar.isDisabled st link = false.
Proof.
  intros Hname. unfold Sidebar.isDisabled. rewrite Hname.
  cbn. now rewrite !andb_false_r.
Qed.

(** An entry without sub-links, other than "Settings", once the trial
    has ended without a subscription: its target is ["#"] and a click
    is swallowed. *)
Lemma renderLink_expired (st : Sidebar.State) (ui : Sidebar.Ui)
    (pathname : string) (link : Sidebar.NavLink) :
  Trial.trialEnded (Sidebar.trialInfo st) = true ->
  Subscription.isActive (Sidebar.subscription st) = false ->
  String.eqb (Sidebar.name link) "Settings" = false ->
  Sidebar.subLinks link = None ->
  exists l,
    Sidebar.renderLink st ui pathname link = Sidebar.Link l
    /\ Sidebar.to l = "#"
    /\ Sidebar.link_style l
       = (if String.eqb pathname (Sidebar.href link)
          then Sidebar.ActiveStyle else Sidebar.DisabledStyle)
    /\ forall ui', Sidebar.clickLink l ui' = (ui', None).
Proof.
  intros Hended Hinactive Hname Hsubs.
  unfold Sidebar.renderLink.
  rewrite (isDisabled_expired st link Hended Hinactive), Hname, Hsubs.
  cbn [negb andb orb]. eexists. split; [reflexivity|].
  cbn [Sidebar.to Sidebar.link_style].
  rewrite orb_false_r. repeat split.
Qed.

(** The "Settings" entry, in every state: an enabled button that
    toggles the list of sub-links; the sub-links it shows are plain
    links to their own paths. *)
Lemma settings_reachable (st : Sidebar.State) (ui : Sidebar.Ui)
    (pathname : string) :
  exists style onClick shown,
    nth_error (Sidebar.SidebarContent st ui pathname) 3
    = Some (Sidebar.Button "Settings" style false onClick shown)
    /\ (forall ui',
          onClick ui'
          = Sidebar.setSettingsOpen (negb (Sidebar.settingsOpen ui)) ui')
    /\ (Sidebar.settingsOpen ui = true ->
        map (fun l => (Sidebar.link_label l, Sidebar.to l)) shown
        = [("Account", "/components/business/settings/account");
           ("Locations", "/components/business/settings/location");
           ("Business Users", "/components/business/settings/businessusers")])
    /\ Forall (fun l => forall ui',
                 Sidebar.clickLink l ui' = (Sidebar.setOpen false ui', Some (Sidebar.to l)))
         shown.
Proof.
  unfold Sidebar.SidebarContent, Sidebar.businessLinks.
  cbn [map nth_error]. unfold Sidebar.renderLink at 1.
  cbn [Sidebar.subLinks Sidebar.name].
  rewrite (isDisabled_Settings st) by reflexivity.
  change (String.eqb "Settings" "Settings") with true. cbn [andb].
  do 3 eexists. split; [reflexivity|]. split; [reflexivity|]. split.
  - intros ->. reflexivity.
  - destruct (Sidebar.settingsOpen ui || Sidebar.shouldKeepSettingsOpen pathname);
      repeat constructor.
Qed.

(** C7. In a state with [trialEnded] and no active subscription, the
    sidebar renders "Dashboard", "Reviews", "Review Link" and
    "Settings"; every entry other than "Settings" is a link whose target
    is ["#"], whose click is swallowed (no navigation, no state change)
    and whose class is the greyed-out one unless the entry is the
    current page; "Settings" is an enabled button whose click toggles its
    sub-entries, and every sub-entry shown is a link that navigates to
    its own path. *)
Theorem expired_trial_disables_navigation
    (st : Sidebar.State) (ui : Sidebar.Ui) (pathname : string) :
  Trial.trialEnded (Sidebar.trialInfo st) = true ->
  Subscription.isActive (Sidebar.subscription st) = false ->
  let entries := Sidebar.SidebarContent st ui pathname in
  map Sidebar.label entries = ["Dashboard"; "Reviews"; "Review Link"; "Settings"]
  /\ Forall (fun e =>
       Sidebar.label e <> "Settings" ->
       (exists l, e = Sidebar.Link l /\ Sidebar.to l = "#"
                  /\ Sidebar.link_style l <> Sidebar.HoverStyle)
       /\ forall ui', Sidebar.click e ui' = (ui', None)) entries
  /\ exists style onClick shown,
       nth_error entries 3
       = Some (Sidebar.Button "Settings" style false onClick shown)
       /\ (forall ui',
             Sidebar.click (Sidebar.Button "Settings" style false onClick shown) ui'
             = (Sidebar.setSettingsOpen (negb (Sidebar.settingsOpen ui)) ui', None))
       /\ (Sidebar.settingsOpen ui = true ->
           map (fun l => (Sidebar.link_label l, Sidebar.to l)) shown
           = [("Account", "/components/business/settings/account");
              ("Locations", "/components/business/settings/location");
              ("Business Users", "/components/business/settings/businessusers")])
       /\ Forall (fun l => forall ui',
                    Sidebar.clickLink l ui'
                    = (Sidebar.setOpen false ui', Some (Sidebar.to l))) shown.
Proof.
  intros Hended Hinactive entries.
  split; [reflexivity|]. split.
  - subst entries. unfold Sidebar.SidebarContent, Sidebar.businessLinks.
    cbn [map].
    do 3 (apply Forall_cons_2;
      [ intros _;
        lazymatch goal with
        | |- context [Sidebar.renderLink _ _ _ ?link] =>
            destruct (renderLink_expired st ui pathname link Hended Hinactive
                        eq_refl eq_refl) as [l [-> [Hto [Hstyle Hclick]]]]
        end;
        split; [exists l; split; [reflexivity | split; [exact Hto|]]
               | exact Hclick];
        rewrite Hstyle; now destruct (String.eqb pathname _) |]).
    apply Forall_cons_2; [|apply Forall_nil_2].
    intros Hlabel. exfalso. apply Hlabel. reflexivity.
  - destruct (settings_reachable st ui pathname)
      as [style [onClick [shown [Hnth [Hclick [Hshown Hlinks]]]]]].
    exists style, onClick, shown.
    split; [exact Hnth|]. split; [|split; assumption].
    intros ui'. cbn [Sidebar.click]. now rewrite Hclick.
Qed.

(** The initial state after a status check on a record without
    subscription and without trial, seen from the dashboard path. *)
Lemma expired_trial_disables_navigation_witness :
  let st := snd (Sidebar.checkUserStatus
                   (FetchOk (Some (sampleUser None TsMissing TsMissing)))
                   1700000000000 Sidebar.initial) in
  let ui := {| Sidebar.sheetOpen := true; Sidebar.settingsOpen := false |} in
  forallb (fun e =>
      String.eqb (Sidebar.label e) "Settings"
      || match Sidebar.click e ui with
         | (ui', None) => true
         | _ => false
         end)
    (Sidebar.SidebarContent st ui "/components/business/dashboard") = true
  /\ map Sidebar.label
       (Sidebar.SidebarContent st ui "/components/business/dashboard")
     = ["Dashboard"; "Reviews"; "Review Link"; "Settings"].
Proof.
  intros st ui.
  destruct (expired_trial_disables_navigation st ui
              "/components/business/dashboard" eq_refl eq_refl)
    as [Hlabels _].
  split; [reflexivity | exact Hlabels].
Defined.

(** ** The review aggregator *)

Lemma fold_forEach_reviewsData (docs : list ReviewDoc) (acc : Dashboard.Acc) :
  Dashboard.reviewsData (fold_left Dashboard.forEach_step docs acc)
  = (Dashboard.reviewsData acc ++ map Dashboard.normalize docs)%list.
Proof.
  revert acc. induction docs as [|doc docs IH]; intros acc; cbn [fold_left map].
  - now rewrite app_nil_r.
  - rewrite IH. cbn [Dashboard.forEach_step Dashboard.reviewsData].
    now rewrite <- app_assoc.
Qed.

Lemma forEach_reviewsData (docs : list ReviewDoc) :
  Dashboard.reviewsData (Dashboard.forEach docs) = map Dashboard.normalize docs.
Proof. unfold Dashboard.forEach. now rewrite fold_forEach_reviewsData. Qed.

Lemma count_of_length (docs : list ReviewDoc) :
  Dashboard.count_of docs = Z.of_nat (length docs).
Proof.
  unfold Dashboard.count_of. now rewrite forEach_reviewsData, length_map.
Qed.

(** What a successful load leaves on the page. *)
Lemma loadHandler_loaded (uid : string) (userData : UserData)
    (docs : list ReviewDoc) (page : Dashboard.Page) :
  Dashboard.loadHandler (Some uid) (FetchOk (Some userData)) (FetchOk docs) page
  = (Returned tt,
     {| Dashboard.businessName :=
          or_string (businessInfo userData ≫= Business.businessName) "";
        Dashboard.loading := false;
        Dashboard.reviews := Dashboard.sorted_of docs;
        Dashboard.stats :=
          {| Dashboard.totalReviews := Dashboard.count_of docs;
             Dashboard.averageRating := Dashboard.average_of docs;
             Dashboard.linkClicks :=
               or_zero (businessInfo userData ≫= Business.linkClicks);
             Dashboard.responseRate :=
               or_zero (businessInfo userData ≫= Business.responseRate);
             Dashboard.ratingDistribution := Dashboard.distribution_of docs |};
        Dashboard.navigations := Dashboard.navigations page;
        Dashboard.console := Dashboard.console page |}).
Proof. reflexivity. Qed.

(** *** Rating buckets *)

Lemma countRated_cons (r : Z) (doc : ReviewDoc) (docs : list ReviewDoc) :
  countRated r (doc :: docs) = bump r doc + countRated r docs.
Proof.
  unfold countRated, bump. cbn [List.filter].
  destruct (ratedWith r doc); cbn [length]; lia.
Qed.

Lemma forEach_step_buckets (doc : ReviewDoc) reviewsData totalRating
    (a b c d e : Z) :
  Dashboard.ratingCounts
    (Dashboard.forEach_step
       {| Dashboard.reviewsData := reviewsData;
          Dashboard.totalRating := totalRating;
          Dashboard.ratingCounts := [a; b; c; d; e] |} doc)
  = [a + bump 5 doc; b + bump 4 doc; c + bump 3 doc; d + bump 2 doc;
     e + bump 1 doc].
Proof.
  unfold Dashboard.forEach_step, bump, ratedWith.
  cbn [Dashboard.ratingCounts].
  destruct (data_rating doc) as [r|].
  - unfold Dashboard.inBucketRange.
    destruct (Z.leb_spec 1 r) as [Hlo|Hlo]; cbn [andb];
      [destruct (Z.leb_spec r 5) as [Hhi|Hhi]|].
    + assert (Hr : r = 1 \/ r = 2 \/ r = 3 \/ r = 4 \/ r = 5) by lia.
      destruct Hr as [-> | [-> | [-> | [-> | ->]]]]; cbn; bucketwise.
    + repeat match goal with
             | |- context [r =? ?k] => destruct (Z.eqb_spec r k); [lia|]
             end.
      now rewrite !Z.add_0_r.
    + repeat match goal with
             | |- context [r =? ?k] => destruct (Z.eqb_spec r k); [lia|]
             end.
      now rewrite !Z.add_0_r.
  - now rewrite !Z.add_0_r.
Qed.

Lemma fold_forEach_buckets (docs : list ReviewDoc) reviewsData totalRating
    (a b c d e : Z) :
  Dashboard.ratingCounts
    (fold_left Dashboard.forEach_step docs
       {| Dashboard.reviewsData := reviewsData;
          Dashboard.totalRating := totalRating;
          Dashboard.ratingCounts := [a; b; c; d; e] |})
  = [a + countRated 5 docs; b + countRated 4 docs; c + countRated 3 docs;
     d + countRated 2 docs; e + countRated 1 docs].
Proof.
  revert reviewsData totalRating a b c d e.
  induction docs as [|doc docs IH]; intros reviewsData totalRating a b c d e.
  - cbn. now rewrite !Z.add_0_r.
  - cbn [fold_left].
    pose proof (forEach_step_buckets doc reviewsData totalRating a b c d e) as Hstep.
    destruct (Dashboard.forEach_step _ doc) as [rd tr rc].
    cbn [Dashboard.ratingCounts] in Hstep. subst rc.
    rewrite IH, !countRated_cons. bucketwise.
Qed.

Lemma distribution_of_tally (docs : list ReviewDoc) :
  Dashboard.distribution_of docs = tally docs.
Proof.
  unfold Dashboard.distribution_of, Dashboard.forEach, tally.
  now rewrite fold_forEach_buckets.
Qed.

Lemma sumZ_tally (docs : list ReviewDoc) :
  sumZ (tally docs) = countStarRated docs.
Proof.
  unfold tally, sumZ. cbn [foldr].
  induction docs as [|doc docs IH]; [reflexivity|].
  rewrite !countRated_cons.
  unfold countStarRated in *. cbn [List.filter].
  assert (Hbump :
    bump 5 doc + bump 4 doc + bump 3 doc + bump 2 doc + bump 1 doc
    = if Dashboard.inBucketRange (data_rating doc) then 1 else 0).
  { unfold bump, ratedWith, Dashboard.inBucketRange.
    destruct (data_rating doc) as [r|]; [|reflexivity].
    destruct (Z.leb_spec 1 r), (Z.leb_spec r 5); cbn [andb];
      repeat match goal with
             | |- context [r =? ?k] => destruct (Z.eqb_spec r k)
             end; lia. }
  destruct (Dashboard.inBucketRange (data_rating doc)); cbn [length]; lia.
Qed.

Lemma inBucketRange_starRated (doc : ReviewDoc) :
  Dashboard.inBucketRange (data_rating doc) = true <-> starRated doc.
Proof.
  unfold Dashboard.inBucketRange, starRated.
  destruct (data_rating doc) as [r|].
  - rewrite andb_true_iff, !Z.leb_le. split.
    + intros H. exists r. split; [reflexivity | lia].
    + intros [r' [[= <-] H]]. lia.
  - split; [discriminate | intros [r [[=] _]]].
Qed.

Lemma countStarRated_le (docs : list ReviewDoc) :
  countStarRated docs <= Z.of_nat (length docs)
  /\ (countStarRated docs = Z.of_nat (length docs) <-> Forall starRated docs).
Proof.
  unfold countStarRated.
  induction docs as [|doc docs [IHle IHeq]].
  - split; [reflexivity|]. split; [constructor | reflexivity].
  - cbn [List.filter].
    destruct (Dashboard.inBucketRange (data_rating doc)) eqn:Hin.
    + cbn [length]. split; [lia|]. split.
      * intros Heq. apply Forall_cons_2.
        -- now apply inBucketRange_starRated.
        -- apply IHeq. lia.
      * intros Hall. apply Forall_cons_1 in Hall as [_ Hall].
        apply IHeq in Hall. lia.
    + cbn [length]. split; [lia|]. split; [lia|].
      intros Hall. apply Forall_cons_1 in Hall as [Hdoc _].
      apply inBucketRange_starRated in Hdoc. congruence.
Qed.

(** C4. The five counters the loader stores are, in order, the numbers
    of records rated 5, 4, 3, 2 and 1: the counter at index [i] counts
    the records whose rating is [5 - i], and a record whose rating is
    missing or outside 1..5 is counted nowhere. Hence their sum is at
    most the number of records, and equals it exactly when every record
    is rated between 1 and 5. *)
Theorem rating_buckets_bounded (docs : list ReviewDoc) :
  let buckets := Dashboard.distribution_of docs in
  buckets = [countRated 5 docs; countRated 4 docs; countRated 3 docs;
             countRated 2 docs; countRated 1 docs]
  /\ (forall i : nat,
        (i < 5)%nat -> buckets !! i = Some (countRated (5 - Z.of_nat i) docs))
  /\ sumZ buckets <= Dashboard.count_of docs
  /\ (sumZ buckets = Dashboard.count_of docs <-> Forall starRated docs).
Proof.
  intros buckets. subst buckets.
  rewrite distribution_of_tally, sumZ_tally, count_of_length.
  split; [reflexivity|]. split.
  - intros i Hi. unfold tally.
    destruct i as [|[|[|[|[|i]]]]]; try reflexivity. lia.
  - apply countStarRated_le.
Qed.

(** *** Recency order *)

Lemma insert_by_Permutation {A : Type} (cmp : A -> A -> Z) (x : A) (l : list A) :
  Permutation (x :: l) (insert_by cmp x l).
Proof.
  induction l as [|y l IH]; cbn [insert_by]; [reflexivity|].
  destruct (cmp x y <=? 0); [reflexivity|].
  rewrite perm_swap. now apply perm_skip.
Qed.

Lemma Array_sort_Permutation {A : Type} (cmp : A -> A -> Z) (l : list A) :
  Permutation l (Array_sort cmp l).
Proof.
  unfold Array_sort. induction l as [|x l IH]; cbn [foldr]; [reflexivity|].
  rewrite <- insert_by_Permutation. now apply perm_skip.
Qed.

Lemma byRecency_newerFirst (a b : Dashboard.Review) :
  Dashboard.byRecency a b <= 0 <-> newerFirst a b.
Proof. unfold Dashboard.byRecency, newerFirst. lia. Qed.

Lemma insert_byRecency_HdRel (x y : Dashboard.Review) (l : list Dashboard.Review) :
  newerFirst y x -> HdRel newerFirst y l ->
  HdRel newerFirst y (insert_by Dashboard.byRecency x l).
Proof.
  intros Hyx Hhd. destruct l as [|z l]; cbn [insert_by].
  - now constructor.
  - destruct (Dashboard.byRecency x z <=? 0); constructor; [assumption|].
    now inversion Hhd.
Qed.

Lemma insert_byRecency_Sorted (x : Dashboard.Review) (l : list Dashboard.Review) :
  Sorted newerFirst l -> Sorted newerFirst (insert_by Dashboard.byRecency x l).
Proof.
  induction 1 as [|y l Hsorted IH Hhd]; cbn [insert_by].
  - repeat constructor.
  - destruct (Z.leb_spec (Dashboard.byRecency x y) 0) as [Hle|Hgt].
    + constructor; [now constructor|]. constructor.
      now apply byRecency_newerFirst.
    + constructor; [exact IH|].
      apply insert_byRecency_HdRel; [|exact Hhd].
      unfold Dashboard.byRecency in Hgt. unfold newerFirst. lia.
Qed.

Lemma Array_sort_byRecency_Sorted (l : list Dashboard.Review) :
  Sorted newerFirst (Array_sort Dashboard.byRecency l).
Proof.
  unfold Array_sort. induction l as [|x l IH]; cbn [foldr].
  - constructor.
  - now apply insert_byRecency_Sorted.
Qed.

Lemma newerFirst_transitive : Relations_1.Transitive newerFirst.
Proof. intros a b c. unfold newerFirst. lia. Qed.

(** C9. The list the loader stores is a rearrangement of the normalized
    reviews in which every review is at least as recent ([createdAt]
    seconds) as every review after it; reviews created at seconds 100,
    300, 200 come out as 300, 200, 100. *)
Theorem reviews_sorted_by_recency (docs : list ReviewDoc) :
  let out := Dashboard.sorted_of docs in
  StronglySorted newerFirst out
  /\ Permutation (map Dashboard.normalize docs) out
  /\ map Dashboard.createdAt
       (Dashboard.sorted_of
          [sampleReview (Some 5) (Some 100); sampleReview (Some 4) (Some 300);
           sampleReview (Some 3) (Some 200)])
     = [300; 200; 100].
Proof.
  intros out. subst out. unfold Dashboard.sorted_of.
  rewrite forEach_reviewsData. split; [|split].
  - apply Sorted_StronglySorted; [exact newerFirst_transitive|].
    apply Array_sort_byRecency_Sorted.
  - apply Array_sort_Permutation.
  - reflexivity.
Qed.

(** *** Average rating *)

Lemma nan_add_l (x : number) : PrimFloat.add PrimFloat.nan x = PrimFloat.nan.
Proof. apply Prim2SF_inj. rewrite add_spec. reflexivity. Qed.

Lemma nan_add_r (x : number) : PrimFloat.add x PrimFloat.nan = PrimFloat.nan.
Proof.
  apply Prim2SF_inj. rewrite add_spec.
  change (Prim2SF PrimFloat.nan) with S754_nan.
  now destruct (Prim2SF x).
Qed.

Lemma nan_div_l (x : number) : PrimFloat.div PrimFloat.nan x = PrimFloat.nan.
Proof. apply Prim2SF_inj. rewrite div_spec. reflexivity. Qed.

Lemma toFixed1_parseFloat_nan : toFixed1_parseFloat PrimFloat.nan = PrimFloat.nan.
Proof. reflexivity. Qed.

Lemma fold_forEach_nan (docs : list ReviewDoc) (acc : Dashboard.Acc) :
  Dashboard.totalRating acc = PrimFloat.nan ->
  Dashboard.totalRating (fold_left Dashboard.forEach_step docs acc) = PrimFloat.nan.
Proof.
  revert acc. induction docs as [|doc docs IH]; intros acc Hnan; [exact Hnan|].
  cbn [fold_left]. apply IH.
  cbn [Dashboard.forEach_step Dashboard.totalRating].
  rewrite Hnan. apply nan_add_l.
Qed.

Lemma fold_forEach_missing (docs : list ReviewDoc) (acc : Dashboard.Acc) :
  Exists (fun doc => data_rating doc = None) docs ->
  Dashboard.totalRating (fold_left Dashboard.forEach_step docs acc) = PrimFloat.nan.
Proof.
  intros Hmissing. revert acc.
  induction Hmissing as [doc docs Hdoc | doc docs _ IH]; intros acc;
    cbn [fold_left]; [|apply IH].
  apply fold_forEach_nan.
  cbn [Dashboard.forEach_step Dashboard.totalRating].
  rewrite Hdoc. apply nan_add_r.
Qed.

(** C2 on the code. The loader adds the raw [data.rating] to
    [totalRating], not the defaulted [rating] it pushes on
    [reviewsData]: as soon as one record has no rating, the sum and the
    stored [averageRating] are NaN, where the defaulted rating 0 would
    have given a finite average. *)
Theorem missing_rating_makes_average_NaN (docs : list ReviewDoc) :
  Exists (fun doc => data_rating doc = None) docs ->
  Dashboard.average_of docs = PrimFloat.nan.
Proof.
  intros Hmissing. unfold Dashboard.average_of.
  destruct (Z.ltb_spec 0 (Dashboard.count_of docs)) as [Hpos|Hempty].
  - unfold Dashboard.forEach at 1.
    rewrite (fold_forEach_missing docs _ Hmissing).
    rewrite nan_div_l. apply toFixed1_parseFloat_nan.
  - exfalso. rewrite count_of_length in Hempty.
    destruct Hmissing; cbn [length] in Hempty; lia.
Qed.

(** One review without a rating: the defaulted rating is 0, the stored
    average is NaN. With a rated review next to it, the same. *)
Lemma missing_rating_makes_average_NaN_witness :
  Dashboard.rating (Dashboard.normalize (sampleReview None None)) = 0
  /\ Dashboard.average_of [sampleReview None None] = PrimFloat.nan
  /\ Dashboard.averageRating
       (Dashboard.stats
          (snd (Dashboard.loadHandler (Some "uid")
                  (FetchOk (Some (sampleUser None TsMissing TsMissing)))
                  (FetchOk [sampleReview (Some 5) None; sampleReview None None])
                  Dashboard.initial)))
     = PrimFloat.nan.
Proof.
  split; [reflexivity|]. split.
  - apply (missing_rating_makes_average_NaN [sampleReview None None]).
    apply Exists_cons_hd. reflexivity.
  - rewrite loadHandler_loaded. cbn [snd Dashboard.stats Dashboard.averageRating].
    apply (missing_rating_makes_average_NaN
             [sampleReview (Some 5) None; sampleReview None None]).
    apply Exists_cons_tl, Exists_cons_hd. reflexivity.
Defined.

(** Up to 400.0 the Number read back from the digits of [n / 10] is the
    correctly rounded quotient of [n] by 10. *)
Lemma nearest_ratio_tenths :
  forallb (fun n =>
      PrimFloat.Leibniz.eqb (nearest_ratio (Z.of_nat n) 10)
        (PrimFloat.div (of_Z (Z.of_nat n)) 10))
    (seq 0 4001) = true.
Proof. vm_compute. reflexivity. Qed.

(** Where every record is rated the average is the quotient rounded to
    one decimal: ratings 5, 4, 4 give 4.3; no record gives 0. *)
Lemma average_of_examples :
  Dashboard.average_of
    [sampleReview (Some 5) None; sampleReview (Some 4) None;
     sampleReview (Some 4) None]
  = 4.3%float
  /\ Dashboard.average_of [] = 0%float.
Proof. split; vm_compute; reflexivity. Qed.

(** ** Percentages *)

Lemma calculatePercentage_examples :
  Dashboard.calculatePercentage (statsWith 0) 0 = 0%float
  /\ Dashboard.calculatePercentage (statsWith 3) 1 = 33%float
  /\ Dashboard.calculatePercentage (statsWith 3) 2 = 67%float
  /\ Dashboard.calculatePercentage (statsWith 200) 29 = 14%float.
Proof. repeat split; vm_compute; reflexivity. Qed.

(** *** The arithmetic of doubles behind [calculatePercentage]

    [count / totalReviews] and its product with 100 are each rounded to
    the nearest double. The lemmas below follow the two roundings
    through the operations' reference implementation on mantissa and
    exponent. *)

(** The number of binary digits of a mantissa. *)
Lemma digits2_bounds (p : positive) :
  2 ^ (Zpos (digits2_pos p) - 1) <= Zpos p < 2 ^ Zpos (digits2_pos p).
Proof.
  induction p as [p IH|p IH|]; cbn [digits2_pos].
  - rewrite Pos2Z.inj_succ, (Pos2Z.inj_xI p).
    replace (Z.succ (Zpos (digits2_pos p)) - 1) with (Z.succ (Zpos (digits2_pos p) - 1)) by lia.
    rewrite !Z.pow_succ_r by lia.
    generalize dependent (2 ^ (Zpos (digits2_pos p) - 1)).
    generalize (2 ^ Zpos (digits2_pos p)). lia.
  - rewrite Pos2Z.inj_succ, (Pos2Z.inj_xO p).
    replace (Z.succ (Zpos (digits2_pos p)) - 1) with (Z.succ (Zpos (digits2_pos p) - 1)) by lia.
    rewrite !Z.pow_succ_r by lia.
    generalize dependent (2 ^ (Zpos (digits2_pos p) - 1)).
    generalize (2 ^ Zpos (digits2_pos p)). lia.
  - cbn. lia.
Qed.

Lemma digits2_unique (p : positive) (d : Z) :
  2 ^ (d - 1) <= Zpos p < 2 ^ d -> Zpos (digits2_pos p) = d.
Proof.
  intros [Hlo Hhi]. pose proof (digits2_bounds p) as [Hlo' Hhi'].
  assert (Hd : 0 < d).
  { destruct (Z.ltb_spec 0 d); [assumption|].
    assert (2 ^ d <= 1).
    { destruct (Z.eq_dec d 0) as [->|]; [cbn; lia|].
      rewrite Z.pow_neg_r by lia. lia. }
    lia. }
  destruct (Z.lt_trichotomy (Zpos (digits2_pos p)) d) as [Hlt | [Heq | Hgt]];
    [exfalso | exact Heq | exfalso].
  - assert (2 ^ Zpos (digits2_pos p) <= 2 ^ (d - 1))
      by (apply Z.pow_le_mono_r; lia). lia.
  - assert (2 ^ d <= 2 ^ (Zpos (digits2_pos p) - 1))
      by (apply Z.pow_le_mono_r; lia). lia.
Qed.


(** Shifting a record by one bit keeps it at the quotient it locates,
    with the denominator doubled. *)
Lemma shr_1_located (N D : Z) (mrs : shr_record) :
  located N D mrs -> located N (2 * D) (shr_1 mrs).
Proof.
  destruct mrs as [m r s]. unfold located. cbn [shr_m shr_r shr_s].
  intros (HD & Hm & Hb & -> & ->).
  destruct m as [|[p|p|]|p]; cbn [shr_1 shr_m shr_r shr_s]; try lia.
  - rewrite (Pos2Z.inj_xI p) in *. set (P := Zpos p) in *.
    assert (0 < P) by (subst P; lia).
    replace (P * (2 * D)) with (2 * (P * D)) by ring.
    replace ((P + 1) * (2 * D)) with (2 * (P * D) + 2 * D) by ring.
    replace ((2 * P + 1) * D) with (2 * (P * D) + D) in * by ring.
    replace ((2 * P + 1 + 1) * D) with (2 * (P * D) + 2 * D) in * by ring.
    generalize dependent (P * D). intros PD Hb.
    repeat split; lia.
  - rewrite (Pos2Z.inj_xO p) in *. set (P := Zpos p) in *.
    assert (0 < P) by (subst P; lia).
    replace (P * (2 * D)) with (2 * (P * D)) by ring.
    replace ((P + 1) * (2 * D)) with (2 * (P * D) + 2 * D) by ring.
    replace (2 * P * D) with (2 * (P * D)) in * by ring.
    replace ((2 * P + 1) * D) with (2 * (P * D) + D) in * by ring.
    generalize dependent (P * D). intros PD Hb.
    repeat split; lia.
Qed.

Lemma iter_shr_1_located (p : positive) :
  forall (N D : Z) (mrs : shr_record),
    located N D mrs -> located N (D * 2 ^ Zpos p) (SpecFloat.iter_pos shr_1 p mrs).
Proof.
  induction p as [p IH|p IH|]; intros N D mrs H; cbn [SpecFloat.iter_pos].
  - apply shr_1_located, IH, IH in H.
    replace (D * 2 ^ Zpos p~1) with (2 * D * 2 ^ Zpos p * 2 ^ Zpos p); [exact H|].
    rewrite (Pos2Z.inj_xI p), Z.pow_add_r, Z.pow_mul_r by lia.
    change (2 ^ 2) with (2 * 2). change (2 ^ 1) with 2.
    rewrite Z.pow_mul_l. ring.
  - apply IH, IH in H.
    replace (D * 2 ^ Zpos p~0) with (D * 2 ^ Zpos p * 2 ^ Zpos p); [exact H|].
    rewrite (Pos2Z.inj_xO p), Z.pow_mul_r by lia.
    change (2 ^ 2) with (2 * 2). rewrite Z.pow_mul_l. ring.
  - apply shr_1_located in H. change (2 ^ 1) with 2.
    now rewrite Z.mul_comm.
Qed.

Lemma shr_located (N D : Z) (mrs : shr_record) (e n : Z) :
  0 <= n -> located N D mrs ->
  located N (D * 2 ^ n) (fst (shr mrs e n)) /\ snd (shr mrs e n) = e + n.
Proof.
  intros Hn H. destruct n as [|p|p]; cbn [shr fst snd]; try lia.
  - rewrite Z.mul_1_r. split; [exact H | lia].
  - split; [now apply iter_shr_1_located | reflexivity].
Qed.

(** The record a division starts from locates its quotient. *)
Lemma new_location_located (N D q rho : Z) :
  0 < D -> 0 <= q -> N = D * q + rho -> 0 <= rho < D ->
  located N D (shr_record_of_loc q (new_location D rho)).
Proof.
  intros HD Hq -> Hrho.
  assert (Hrem : D * q + rho - q * D = rho) by ring.
  assert (Hparity : Z.even D = false -> 2 * rho <> D).
  { intros Hodd Heq. rewrite <- Heq, Z.even_mul in Hodd. discriminate. }
  unfold new_location, new_location_even, new_location_odd.
  change (IntDef.Z.even D) with (Z.even D).
  destruct (Z.even D) eqn:Heven;
    [| specialize (Hparity eq_refl)];
    destruct (Z.eqb_spec rho 0) as [Hz|Hz];
    [| destruct (Z.compare_spec (2 * rho) D)
     | | destruct (Z.compare_spec (2 * rho + 1) D)];
    unfold located; cbn [shr_record_of_loc shr_m shr_r shr_s];
    rewrite ?Hrem;
    (repeat split; [lia | lia | nia | nia | lia | lia]).
Qed.

Lemma exact_located (m : Z) :
  0 <= m -> located m 1 (shr_record_of_loc m loc_Exact).
Proof.
  intros Hm. unfold located. cbn [shr_record_of_loc shr_m shr_r shr_s].
  repeat split; lia.
Qed.

(** Rounding to nearest moves a located quotient by at most one half. *)
Lemma round_nearest_even_located (N D : Z) (mrs : shr_record) :
  located N D mrs ->
  let m := round_nearest_even (shr_m mrs) (loc_of_shr_record mrs) in
  (m = shr_m mrs \/ m = shr_m mrs + 1)
  /\ Z.abs (2 * (m * D) - 2 * N) <= D.
Proof.
  destruct mrs as [m r s]. unfold located. cbn [shr_m shr_r shr_s].
  intros (HD & Hm & Hb & Hr & Hs).
  replace ((m + 1) * D) with (m * D + D) in Hb by ring.
  assert (Hup : (m + 1) * D = m * D + D) by ring.
  revert Hr Hs.
  destruct (Z.leb_spec D (2 * (N - m * D)));
    destruct (Z.eqb_spec (N - m * D) 0);
    destruct (Z.eqb_spec (2 * (N - m * D)) D);
    cbn [negb andb]; intros -> ->;
    cbn [loc_of_shr_record round_nearest_even]; try lia;
    try destruct (IntDef.Z.even m);
    rewrite ?Hup; (split; [lia | lia]).
Qed.

(** The exponent of a normal Number with [e] binary digits before the
    point. *)
Lemma fexp_normal (e : Z) : -1074 <= e - 53 -> fexp prec emax e = e - 53.
Proof.
  intros H. unfold fexp. change (SpecFloat.emin prec emax) with (-1074).
  change prec with 53. change IntDef.Z.max with Z.max. lia.
Qed.

(** The rounding step shared by every operation: on a mantissa of at
    least 53 bits that locates [N / D] it returns a normal Number whose
    mantissa, [k] bits up, is within one half of [N / D]. *)
Lemma binary_round_aux_located
    (sx : bool) (mx : positive) (ex : Z) (lx : location) (N D : Z) :
  located N D (shr_record_of_loc (Zpos mx) lx) ->
  let n := Zpos (digits2_pos mx) - 53 in
  0 <= n -> -1074 <= ex + n -> ex + n < 971 ->
  exists (mz : positive) (k : Z),
    binary_round_aux prec emax sx (Zpos mx) ex lx = S754_finite sx mz (ex + k)
    /\ n <= k <= n + 1
    /\ 2 ^ 52 <= Zpos mz < 2 ^ 53
    /\ Z.abs (2 * (Zpos mz * (D * 2 ^ k)) - 2 * N) <= D * 2 ^ n.
Proof.
  intros Hloc n Hn Hlo Hhi.
  unfold binary_round_aux, shr_fexp. cbn [Zdigits2].
  rewrite (fexp_normal (Zpos (digits2_pos mx) + ex)) by (subst n; lia).
  replace (Zpos (digits2_pos mx) + ex - 53 - ex) with n by (subst n; lia).
  destruct (shr_located N D _ ex n Hn Hloc) as [H1 He1].
  destruct (shr (shr_record_of_loc (Zpos mx) lx) ex n) as [mrs1 e1].
  cbn [fst snd] in H1, He1. subst e1.
  pose proof (round_nearest_even_located _ _ _ H1) as [Hm2 Herr].
  cbv zeta in Hm2, Herr.
  set (m1 := shr_m mrs1) in *.
  set (m2 := round_nearest_even m1 (loc_of_shr_record mrs1)) in *.
  assert (Hm1 : 2 ^ 52 <= m1 < 2 ^ 53).
  { destruct Hloc as (HD & _ & Hb & _).
    destruct H1 as (_ & Hm1 & Hb1 & _). fold m1 in Hm1, Hb1.
    assert (Hmx : shr_m (shr_record_of_loc (Zpos mx) lx) = Zpos mx)
      by (destruct lx as [|[]]; reflexivity).
    rewrite Hmx in Hb.
    pose proof (digits2_bounds mx) as Hd.
    replace (Zpos (digits2_pos mx) - 1) with (52 + n) in Hd by (subst n; lia).
    replace (Zpos (digits2_pos mx)) with (53 + n) in Hd by (subst n; lia).
    rewrite !Z.pow_add_r in Hd by lia.
    assert (HT : 0 < 2 ^ n) by (apply Z.pow_pos_nonneg; lia).
    set (T := 2 ^ n) in *. clearbody T. clearbody m1.
    set (X := Zpos mx) in *. clearbody X.
    change (2 ^ 52) with 4503599627370496 in *.
    change (2 ^ 53) with 9007199254740992 in *.
    assert (m1 * T < X + 1).
    { apply (Z.mul_lt_mono_pos_r D); [exact HD|].
      replace (m1 * T * D) with (m1 * (D * T)) by ring. lia. }
    assert (X < (m1 + 1) * T).
    { apply (Z.mul_lt_mono_pos_r D); [exact HD|].
      replace ((m1 + 1) * T * D) with ((m1 + 1) * (D * T)) by ring. lia. }
    split.
    - assert (4503599627370496 < m1 + 1); [|lia].
      apply (Z.mul_lt_mono_pos_r T); [exact HT|]. lia.
    - apply (Z.mul_lt_mono_pos_r T); [exact HT|]. lia. }
  change (emax - prec) with 971.
  destruct (Z.eq_dec m2 (2 ^ 53)) as [Htop|Htop].
  - rewrite Htop in *.
    change (Zdigits2 (2 ^ 53)) with 54.
    rewrite (fexp_normal (54 + (ex + n))) by lia.
    replace (54 + (ex + n) - 53 - (ex + n)) with 1 by lia.
    cbn -[Z.leb].
    destruct (Z.leb_spec (ex + n + 1) 971) as [_|]; [|lia].
    exists 4503599627370496%positive, (n + 1).
    replace (ex + (n + 1)) with (ex + n + 1) by lia.
    split; [reflexivity|]. split; [lia|]. split; [cbn; lia|].
    rewrite Z.pow_add_r by lia. change (2 ^ 1) with 2.
    change (2 ^ 53) with 9007199254740992 in Herr.
    set (T := 2 ^ n) in *.
    assert (0 <= D * T).
    { destruct H1 as (HDT & _). lia. }
    replace (4503599627370496 * (D * (T * 2)))
      with (9007199254740992 * (D * T)) by ring.
    exact Herr.
  - assert (Hm2' : 2 ^ 52 <= m2 < 2 ^ 53) by lia.
    destruct m2 as [|pm2|pm2] eqn:Epm2; try (cbn in Hm2'; lia).
    change (Zdigits2 (Zpos pm2)) with (Zpos (digits2_pos pm2)).
    rewrite (digits2_unique pm2 53) by exact Hm2'.
    rewrite (fexp_normal (53 + (ex + n))) by lia.
    replace (53 + (ex + n) - 53 - (ex + n)) with 0 by lia.
    cbn -[Z.leb].
    destruct (Z.leb_spec (ex + n) 971) as [_|]; [|lia].
    exists pm2, n.
    split; [reflexivity|]. split; [lia|]. split; [exact Hm2'|].
    exact Herr.
Qed.

Lemma finite_valid (s : bool) (m : positive) (e : Z) :
  2 ^ 52 <= Zpos m < 2 ^ 53 -> -1074 <= e <= 971 ->
  valid_binary (S754_finite s m e) = true.
Proof.
  intros Hm He. cbn [SpecFloat.valid_binary]. unfold bounded, canonical_mantissa.
  rewrite (digits2_unique m 53) by exact Hm.
  rewrite fexp_normal by lia. change (emax - prec) with 971.
  apply andb_true_intro. split; [apply Z.eqb_eq | apply Z.leb_le]; lia.
Qed.

Lemma iter_xO_pow2 (m q : positive) :
  Zpos (PosDef.Pos.iter xO m q) = Zpos m * 2 ^ Zpos q.
Proof.
  change (PosDef.Pos.iter xO m q) with (Pos.iter xO m q).
  rewrite (Pos.iter_swap_gen _ _ Zpos xO (Z.mul 2)) by reflexivity.
  rewrite <- Z.shiftl_mul_pow2 by lia. reflexivity.
Qed.

(** An integer below [2 ^ 53] is a Number: its mantissa is the integer
    shifted to 53 bits. *)
Lemma of_Z_finite (z : Z) :
  0 < z < 2 ^ 53 ->
  exists (m : positive) (a : Z),
    Prim2SF (of_Z z) = S754_finite false m (- a)
    /\ 0 <= a <= 52
    /\ 2 ^ 52 <= Zpos m < 2 ^ 53
    /\ Zpos m = z * 2 ^ a.
Proof.
  intros [Hpos Hlt]. destruct z as [|p|p]; try lia.
  unfold of_Z. cbn [binary_normalize]. unfold binary_round.
  pose proof (digits2_bounds p) as Hd.
  set (d := Zpos (digits2_pos p)) in *.
  assert (Hd53 : 1 <= d <= 53).
  { split; [subst d; lia|].
    destruct (Z.le_gt_cases d 53) as [|Hgt]; [assumption|].
    assert (2 ^ 53 <= 2 ^ (d - 1)) by (apply Z.pow_le_mono_r; lia). lia. }
  rewrite Z.add_0_r, fexp_normal by lia.
  assert (Hshl : exists m : positive,
             shl_align p 0 (d - 53) = (m, d - 53)
             /\ Zpos m = Zpos p * 2 ^ (53 - d)).
  { unfold shl_align. rewrite Z.sub_0_r.
    destruct (d - 53) as [|q|q] eqn:E; try lia.
    - exists p. replace (53 - d) with 0 by lia. split; [reflexivity | lia].
    - exists (PosDef.Pos.iter xO p q). split; [reflexivity|].
      rewrite iter_xO_pow2. replace (53 - d) with (Zpos q) by lia. reflexivity. }
  destruct Hshl as (m & -> & Hm).
  assert (Hm53 : 2 ^ 52 <= Zpos m < 2 ^ 53).
  { rewrite Hm.
    replace (2 ^ 52) with (2 ^ (d - 1) * 2 ^ (53 - d))
      by (rewrite <- Z.pow_add_r by lia; f_equal; lia).
    replace (2 ^ 53) with (2 ^ d * 2 ^ (53 - d))
      by (rewrite <- Z.pow_add_r by lia; f_equal; lia).
    assert (0 < 2 ^ (53 - d)) by (apply Z.pow_pos_nonneg; lia).
    split; [apply Z.mul_le_mono_nonneg_r | apply Z.mul_lt_mono_pos_r]; lia. }
  pose proof (binary_round_aux_located false m (d - 53) loc_Exact (Zpos m) 1
                (exact_located (Zpos m) ltac:(lia))) as H.
  cbv zeta in H. rewrite (digits2_unique m 53) in H by exact Hm53.
  destruct H as (mz & k & Hrun & Hk & Hmz & Herr); try lia.
  change (2 ^ (53 - 53)) with 1 in Herr. rewrite !Z.mul_1_l in Herr.
  assert (Hk0 : k = 0).
  { destruct (Z.eq_dec k 0) as [|Hne]; [assumption|].
    assert (k = 1) by lia. subst k. change (2 ^ 1) with 2 in Herr.
    change (2 ^ 52) with 4503599627370496 in *.
    change (2 ^ 53) with 9007199254740992 in *. lia. }
  subst k. change (2 ^ 0) with 1 in Herr. rewrite Z.add_0_r in Hrun.
  assert (Zpos mz = Zpos m) by lia.
  rewrite Hrun, Prim2SF_SF2Prim by (apply finite_valid; lia).
  exists mz, (53 - d). replace (- (53 - d)) with (d - 53) by lia.
  split; [reflexivity|]. split; [lia|]. split; [exact Hmz|]. lia.
Qed.

(** Such an integer is read back from its Number. *)
Lemma integral_of_Z (z : Z) :
  0 <= z < 2 ^ 53 -> integral (of_Z z) = Some z.
Proof.
  intros [Hz Hlt]. destruct (Z.eq_dec z 0) as [->|Hne]; [reflexivity|].
  destruct (of_Z_finite z) as (m & a & Hrun & Ha & _ & Hm); [lia|].
  unfold integral. rewrite Hrun.
  destruct a as [|k|k]; try lia; cbn [Z.opp].
  - rewrite Hm. change (2 ^ 0) with 1. f_equal. lia.
  - change (- Zpos k) with (Zneg k). cbv beta iota zeta.
    rewrite Hm, Z_mod_mult, Z_div_mult by lia. reflexivity.
Qed.

(** The long division of two 53-bit mantissas: 53 quotient bits and a
    remainder. *)
Lemma SFdiv_core_binary_normal (m1 m2 : positive) (a1 a2 : Z) :
  2 ^ 52 <= Zpos m1 < 2 ^ 53 -> 2 ^ 52 <= Zpos m2 < 2 ^ 53 ->
  0 <= a1 <= 52 -> 0 <= a2 <= 52 ->
  SFdiv_core_binary prec emax (Zpos m1) (- a1) (Zpos m2) (- a2)
  = (Zpos m1 * 2 ^ 53 / Zpos m2, a2 - a1 - 53,
     new_location (Zpos m2) ((Zpos m1 * 2 ^ 53) mod Zpos m2)).
Proof.
  intros H1 H2 Ha1 Ha2. unfold SFdiv_core_binary. cbv zeta. cbn [Zdigits2].
  rewrite (digits2_unique m1 53), (digits2_unique m2 53) by assumption.
  rewrite fexp_normal by lia. change IntDef.Z.min with Z.min.
  rewrite Z.min_l by lia.
  replace (- a1 - - a2 - (53 + - a1 - (53 + - a2) - 53)) with 53 by lia.
  replace (53 + - a1 - (53 + - a2) - 53) with (a2 - a1 - 53) by lia.
  change (IntDef.Z.shiftl (Zpos m1) 53) with (Z.shiftl (Zpos m1) 53).
  rewrite Z.shiftl_mul_pow2 by lia.
  change IntDef.Z.div_eucl with Z.div_eucl.
  unfold Z.div, Z.modulo.
  destruct (Z.div_eucl (Zpos m1 * 2 ^ 53) (Zpos m2)) as [q r]. reflexivity.
Qed.

(** The quotient of two normal Numbers is the nearest one: the error
    is at most half a unit of its last place. *)
Lemma div_finite (x y : float) (m1 m2 : positive) (a1 a2 : Z) :
  Prim2SF x = S754_finite false m1 (- a1) ->
  Prim2SF y = S754_finite false m2 (- a2) ->
  2 ^ 52 <= Zpos m1 < 2 ^ 53 -> 2 ^ 52 <= Zpos m2 < 2 ^ 53 ->
  0 <= a1 <= 52 -> 0 <= a2 <= 52 ->
  exists (mq : positive) (k : Z),
    Prim2SF (PrimFloat.div x y) = S754_finite false mq (a2 - a1 - 53 + k)
    /\ 0 <= k <= 2
    /\ 2 ^ 52 <= Zpos mq < 2 ^ 53
    /\ Z.abs (2 * (Zpos mq * (Zpos m2 * 2 ^ k)) - 2 * (Zpos m1 * 2 ^ 53))
       <= Zpos m2 * 2 ^ k.
Proof.
  intros Hx Hy H1 H2 Ha1 Ha2.
  rewrite div_spec, Hx, Hy. unfold SF64div, SFdiv. cbn [xorb].
  rewrite SFdiv_core_binary_normal by assumption.
  set (N := Zpos m1 * 2 ^ 53).
  pose proof (Z.div_mod N (Zpos m2) ltac:(lia)) as Hdiv.
  pose proof (Z.mod_pos_bound N (Zpos m2) ltac:(lia)) as Hmod.
  set (q := N / Zpos m2) in *. set (r := N mod Zpos m2) in *.
  assert (Hq : 2 ^ 52 <= q < 2 ^ 54).
  { change (2 ^ 52) with 4503599627370496 in *.
    change (2 ^ 53) with 9007199254740992 in *.
    change (2 ^ 54) with 18014398509481984.
    subst N. split; nia. }
  destruct q as [|pq|pq] eqn:Eq; try (cbn in Hq; lia).
  pose proof (digits2_bounds pq) as Hd.
  set (d := Zpos (digits2_pos pq)) in *.
  assert (Hd' : 53 <= d <= 54).
  { split.
    - destruct (Z.le_gt_cases 53 d) as [|Hlt]; [assumption|].
      assert (2 ^ d <= 2 ^ 52) by (apply Z.pow_le_mono_r; lia). lia.
    - destruct (Z.le_gt_cases d 54) as [|Hgt]; [assumption|].
      assert (2 ^ 54 <= 2 ^ (d - 1)) by (apply Z.pow_le_mono_r; lia). lia. }
  pose proof (binary_round_aux_located false pq (a2 - a1 - 53)
                (new_location (Zpos m2) r) N (Zpos m2)
                (new_location_located N (Zpos m2) (Zpos pq) r
                   ltac:(lia) ltac:(lia) Hdiv Hmod)) as H.
  cbv zeta in H. fold d in H.
  destruct H as (mq & k & Hrun & Hk & Hmq & Herr); try lia.
  exists mq, k. split; [exact Hrun|]. split; [lia|]. split; [exact Hmq|].
  assert (2 ^ (d - 53) <= 2 ^ k) by (apply Z.pow_le_mono_r; lia).
  assert (Zpos m2 * 2 ^ (d - 53) <= Zpos m2 * 2 ^ k)
    by (apply Z.mul_le_mono_nonneg_l; lia).
  lia.
Qed.

(** The product with 100 is the Number nearest to it. *)
Lemma mul_100_finite (x : float) (mq : positive) (eq : Z) :
  Prim2SF x = S754_finite false mq eq ->
  2 ^ 52 <= Zpos mq < 2 ^ 53 -> -200 <= eq <= 200 ->
  exists (mr : positive) (k : Z),
    Prim2SF (PrimFloat.mul x 100) = S754_finite false mr (eq - 46 + k)
    /\ 52 <= k <= 54
    /\ 2 ^ 52 <= Zpos mr < 2 ^ 53
    /\ Z.abs (2 * (Zpos mr * 2 ^ k) - 2 * (Zpos mq * (100 * 2 ^ 46)))
       <= 2 ^ k.
Proof.
  intros Hx Hmq Heq.
  rewrite mul_spec, Hx.
  change (Prim2SF 100) with (S754_finite false 7036874417766400 (-46)).
  unfold SF64mul, SFmul. cbn [xorb].
  set (N := Zpos (mq * 7036874417766400)).
  assert (HN : N = Zpos mq * (100 * 2 ^ 46)) by (subst N; rewrite Pos2Z.inj_mul; reflexivity).
  pose proof (digits2_bounds (mq * 7036874417766400)) as Hd.
  fold N in Hd.
  set (d := Zpos (digits2_pos (mq * 7036874417766400))) in *.
  assert (Hd' : 105 <= d <= 106).
  { change (2 ^ 52) with 4503599627370496 in *.
    change (2 ^ 53) with 9007199254740992 in *.
    change (100 * 2 ^ 46) with 7036874417766400 in HN.
    split.
    - destruct (Z.le_gt_cases 105 d) as [|Hlt]; [assumption|].
      assert (2 ^ d <= 2 ^ 104) by (apply Z.pow_le_mono_r; lia).
      change (2 ^ 104) with (4503599627370496 * 4503599627370496) in *. nia.
    - destruct (Z.le_gt_cases d 106) as [|Hgt]; [assumption|].
      assert (2 ^ 106 <= 2 ^ (d - 1)) by (apply Z.pow_le_mono_r; lia).
      change (2 ^ 106) with (9007199254740992 * 9007199254740992) in *. nia. }
  pose proof (binary_round_aux_located false (mq * 7036874417766400)
                (eq + -46) loc_Exact N 1 (exact_located N ltac:(lia))) as H.
  cbv zeta in H. fold d in H.
  destruct H as (mr & k & Hrun & Hk & Hmr & Herr); try lia.
  exists mr, k. replace (eq - 46 + k) with (eq + -46 + k) by lia.
  split; [exact Hrun|]. split; [lia|]. split; [exact Hmr|].
  rewrite !Z.mul_1_l in Herr. rewrite <- HN.
  assert (2 ^ (d - 53) <= 2 ^ k) by (apply Z.pow_le_mono_r; lia).
  lia.
Qed.

(** [Math.round] of a positive Number with a fractional part. *)
Lemma Math_round_finite (x : float) (m : positive) (K : Z) :
  Prim2SF x = S754_finite false m (- K) -> 0 < K ->
  Math_round x = of_Z ((2 * Zpos m + 2 ^ K) / 2 ^ (K + 1)).
Proof.
  intros Hx HK. unfold Math_round. rewrite Hx.
  destruct K as [|k|k]; try lia. reflexivity.
Qed.

Lemma abs_scale (a b e f : Z) :
  Z.abs (a - b) <= e -> 0 <= f -> Z.abs (a * f - b * f) <= e * f.
Proof.
  intros H Hf. rewrite <- Z.mul_sub_distr_r, Z.abs_mul, (Z.abs_eq f) by exact Hf.
  now apply Z.mul_le_mono_nonneg_r.
Qed.

(** The error budget of [Math.round ((count / total) * 100)]: the two
    roundings move the value by less than [1 / (2 * total)], too little
    to reach another integer than a nearest one. *)
Lemma percent_error (c t mq mr a1 a2 k k2 K : Z) :
  0 < c <= t -> t < 2 ^ 44 ->
  0 <= a1 -> 0 <= a2 -> 0 <= k -> 0 <= k2 ->
  2 ^ 52 <= mq -> 2 ^ 52 <= mr ->
  Z.abs (2 * (mq * (t * 2 ^ a2 * 2 ^ k)) - 2 * (c * 2 ^ a1 * 2 ^ 53))
    <= t * 2 ^ a2 * 2 ^ k ->
  Z.abs (2 * (mr * 2 ^ k2) - 2 * (mq * (100 * 2 ^ 46))) <= 2 ^ k2 ->
  K = a1 - a2 + 99 - k - k2 ->
  46 <= K
  /\ Z.abs (2 * t * ((2 * mr + 2 ^ K) / 2 ^ (K + 1)) - 200 * c) <= t.
Proof.
  intros Hc Ht Ha1 Ha2 Hk Hk2 Hmq Hmr H1 H2 HK.
  assert (HU : 0 < 2 ^ a1) by (apply Z.pow_pos_nonneg; lia).
  assert (HVW : 0 < 2 ^ (a2 + k)) by (apply Z.pow_pos_nonneg; lia).
  assert (HY : 0 < 2 ^ k2) by (apply Z.pow_pos_nonneg; lia).
  replace (t * 2 ^ a2 * 2 ^ k) with (t * 2 ^ (a2 + k)) in H1
    by (rewrite Z.pow_add_r by lia; ring).
  set (U := 2 ^ a1) in *. set (VW := 2 ^ (a2 + k)) in *. set (Y := 2 ^ k2) in *.
  change (2 ^ 52) with 4503599627370496 in *.
  change (2 ^ 53) with 9007199254740992 in *.
  change (2 ^ 44) with 17592186044416 in *.
  change (100 * 2 ^ 46) with 7036874417766400 in *.
  (* the atoms of the argument *)
  set (Z1 := t * VW) in *.
  assert (HZ1 : 0 < Z1) by (subst Z1; apply Z.mul_pos_pos; lia).
  assert (HtU : 0 < t * U) by (apply Z.mul_pos_pos; lia).
  assert (HcU : 0 < c * U <= t * U).
  { split; [apply Z.mul_pos_pos; lia | apply Z.mul_le_mono_nonneg_r; lia]. }
  assert (HtU' : t * U <= 17592186044415 * U)
    by (apply Z.mul_le_mono_nonneg_r; lia).
  assert (HmqZ : 4503599627370496 * Z1 <= mq * Z1)
    by (apply Z.mul_le_mono_nonneg_r; lia).
  replace (2 * (c * U * 9007199254740992))
    with (18014398509481984 * (c * U)) in H1 by ring.
  (* the quotient is at most about one *)
  assert (HA : a2 + k <= a1 + 1).
  { destruct (Z.le_gt_cases (a2 + k) (a1 + 1)) as [|Hgt]; [assumption|exfalso].
    assert (Hpow : 2 ^ (a1 + 2) <= VW) by (apply Z.pow_le_mono_r; lia).
    rewrite (Z.pow_add_r 2 a1 2) in Hpow by lia. fold U in Hpow.
    change (2 ^ 2) with 4 in Hpow.
    assert (4 * (t * U) <= Z1).
    { replace (4 * (t * U)) with (t * (U * 4)) by ring.
      apply Z.mul_le_mono_nonneg_l; lia. }
    generalize dependent (mq * Z1). generalize dependent (c * U).
    generalize dependent (t * U). intros. lia. }
  assert (HVW2 : VW <= 2 * U).
  { assert (Hpow : VW <= 2 ^ (a1 + 1)) by (apply Z.pow_le_mono_r; lia).
    rewrite (Z.pow_add_r 2 a1 1) in Hpow by lia. fold U in Hpow.
    change (2 ^ 1) with 2 in Hpow. lia. }
  assert (HZ1' : Z1 <= 2 * (t * U)).
  { replace (2 * (t * U)) with (t * (2 * U)) by ring.
    apply Z.mul_le_mono_nonneg_l; lia. }
  (* the product is at most about a hundred *)
  set (S := Y * Z1).
  assert (HS : 0 < S) by (subst S; apply Z.mul_pos_pos; lia).
  assert (HmrS : 4503599627370496 * S <= mr * S)
    by (apply Z.mul_le_mono_nonneg_r; lia).
  assert (H2' : Z.abs (2 * (mr * S) - 14073748835532800 * (mq * Z1)) <= S).
  { pose proof (abs_scale _ _ _ Z1 H2 ltac:(lia)) as H.
    replace (2 * (mr * Y) * Z1) with (2 * (mr * S)) in H by (subst S; ring).
    replace (2 * (mq * 7036874417766400) * Z1)
      with (14073748835532800 * (mq * Z1)) in H by ring.
    exact H. }
  assert (HS_pow : S = t * 2 ^ (a2 + k + k2)).
  { subst S Z1 VW Y. rewrite (Z.pow_add_r 2 (a2 + k) k2) by lia. ring. }
  assert (HB : a2 + k + k2 <= a1 + 53).
  { destruct (Z.le_gt_cases (a2 + k + k2) (a1 + 53)) as [|Hgt]; [assumption|exfalso].
    assert (Hpow : 2 ^ (a1 + 54) <= 2 ^ (a2 + k + k2))
      by (apply Z.pow_le_mono_r; lia).
    rewrite (Z.pow_add_r 2 a1 54) in Hpow by lia. fold U in Hpow.
    change (2 ^ 54) with 18014398509481984 in Hpow.
    assert (18014398509481984 * (t * U) <= S).
    { replace (18014398509481984 * (t * U))
        with (t * (U * 18014398509481984)) by ring.
      rewrite HS_pow. apply Z.mul_le_mono_nonneg_l; lia. }
    clear HS_pow.
    generalize dependent (mr * S). generalize dependent (mq * Z1).
    generalize dependent (c * U). generalize dependent (t * U).
    clearbody S. intros. lia. }
  split; [lia|].
  assert (HS53 : S <= 9007199254740992 * (t * U)).
  { assert (Hpow : 2 ^ (a2 + k + k2) <= 2 ^ (a1 + 53))
      by (apply Z.pow_le_mono_r; lia).
    rewrite (Z.pow_add_r 2 a1 53) in Hpow by lia. fold U in Hpow.
    change (2 ^ 53) with 9007199254740992 in Hpow.
    rewrite HS_pow. replace (9007199254740992 * (t * U))
      with (t * (U * 9007199254740992)) by ring.
    apply Z.mul_le_mono_nonneg_l; lia. }
  (* the rounded value against the exact percentage *)
  assert (HKS : 2 ^ K * S = 633825300114114700748351602688 * (t * U)).
  { rewrite HS_pow.
    replace (2 ^ K * (t * 2 ^ (a2 + k + k2)))
      with (t * (2 ^ K * 2 ^ (a2 + k + k2))) by ring.
    rewrite <- Z.pow_add_r by lia.
    replace (K + (a2 + k + k2)) with (a1 + 99) by lia.
    rewrite (Z.pow_add_r 2 a1 99) by lia. fold U.
    change (2 ^ 99) with 633825300114114700748351602688. ring. }
  assert (HK0 : 0 < 2 ^ K) by (apply Z.pow_pos_nonneg; lia).
  rewrite (Z.pow_add_r 2 K 1) by lia. change (2 ^ 1) with 2.
  pose proof (Z.div_mod (2 * mr + 2 ^ K) (2 ^ K * 2) ltac:(lia)) as Hdm.
  pose proof (Z.mod_pos_bound (2 * mr + 2 ^ K) (2 ^ K * 2) ltac:(lia)) as Hrem.
  set (p := (2 * mr + 2 ^ K) / (2 ^ K * 2)) in *.
  set (rem := (2 * mr + 2 ^ K) mod (2 ^ K * 2)) in *.
  assert (HremS : 0 <= rem * S < 2 * (2 ^ K * S)).
  { split; [apply Z.mul_nonneg_nonneg; lia|].
    replace (2 * (2 ^ K * S)) with (2 ^ K * 2 * S) by ring.
    apply Z.mul_lt_mono_pos_r; lia. }
  assert (Hscaled : 2 * (mr * S) + 2 ^ K * S
                    = 2 * ((2 ^ K * S) * p) + rem * S).
  { replace (2 * (mr * S) + 2 ^ K * S) with ((2 * mr + 2 ^ K) * S) by ring.
    rewrite Hdm. ring. }
  rewrite HKS in Hscaled, HremS.
  set (G := 633825300114114700748351602688 * U) in *.
  assert (HG : 0 < G) by (subst G; lia).
  assert (Hgoal : -G < G * (2 * t * p - 200 * c - t) + G * (2 * t)
                  /\ G * (2 * t * p - 200 * c - t) < G).
  { replace (G * (2 * t * p - 200 * c - t) + G * (2 * t))
      with (2 * (633825300114114700748351602688 * (t * U) * p)
            - 126765060022822940149670320537600 * (c * U)
            + 633825300114114700748351602688 * (t * U))
      by (subst G; ring).
    replace (G * (2 * t * p - 200 * c - t))
      with (2 * (633825300114114700748351602688 * (t * U) * p)
            - 126765060022822940149670320537600 * (c * U)
            - 633825300114114700748351602688 * (t * U))
      by (subst G; ring).
    subst G. clear HS_pow HKS.
    generalize dependent (633825300114114700748351602688 * (t * U) * p).
    generalize dependent (rem * S).
    generalize dependent (mr * S). generalize dependent (mq * Z1).
    generalize dependent (c * U). generalize dependent (t * U).
    clearbody S. intros. lia. }
  destruct Hgoal as [Hlow Hup].
  assert (2 * t * p - 200 * c - t < 1).
  { apply (Z.mul_lt_mono_pos_l G); lia. }
  assert (-1 < 2 * t * p - 200 * c - t + 2 * t).
  { apply (Z.mul_lt_mono_pos_l G); [exact HG|].
    rewrite Z.mul_add_distr_l. lia. }
  lia.
Qed.

(** The rounded double is a nearest integer of the exact percentage. *)
Lemma calculatePercentage_nearest (st : Dashboard.Stats) (count : Z) :
  0 < Dashboard.totalReviews st < 2 ^ 44 ->
  0 <= count <= Dashboard.totalReviews st ->
  exists p : Z,
    integral (Dashboard.calculatePercentage st count) = Some p
    /\ Z.abs (2 * Dashboard.totalReviews st * p - 200 * count)
       <= Dashboard.totalReviews st.
Proof.
  intros Ht Hc.
  unfold Dashboard.calculatePercentage, Dashboard.calculatePercentage_traced,
    Dashboard.divide.
  set (t := Dashboard.totalReviews st) in *.
  destruct (Z.ltb_spec 0 t) as [_|]; [|lia]. cbn [fst].
  assert (Ht53 : 0 < t < 2 ^ 53).
  { change (2 ^ 44) with 17592186044416 in Ht.
    change (2 ^ 53) with 9007199254740992. lia. }
  destruct (of_Z_finite t Ht53) as (m2 & a2 & Hy & Ha2 & Hm2 & Em2).
  destruct (Z.eq_dec count 0) as [->|Hne].
  - assert (Hx : Prim2SF (PrimFloat.mul (PrimFloat.div (of_Z 0) (of_Z t)) 100)
                 = S754_zero false).
    { rewrite mul_spec, div_spec, Hy. reflexivity. }
    exists 0. unfold Math_round, integral. rewrite Hx, Hx.
    split; [reflexivity | lia].
  - assert (Hc53 : 0 < count < 2 ^ 53) by lia.
    destruct (of_Z_finite count Hc53) as (m1 & a1 & Hx & Ha1 & Hm1 & Em1).
    destruct (div_finite _ _ m1 m2 a1 a2 Hx Hy Hm1 Hm2 Ha1 Ha2)
      as (mq & k & Hq & Hk & Hmq & Hqerr).
    destruct (mul_100_finite _ mq _ Hq Hmq ltac:(lia))
      as (mr & k2 & Hr & Hk2 & Hmr & Hrerr).
    rewrite Em1, Em2 in Hqerr.
    destruct (percent_error count t (Zpos mq) (Zpos mr) a1 a2 k k2
                (a1 - a2 + 99 - k - k2)) as [HK Hp]; try lia.
    set (K := a1 - a2 + 99 - k - k2) in *.
    replace (a2 - a1 - 53 + k - 46 + k2) with (- K) in Hr by (subst K; lia).
    rewrite (Math_round_finite _ mr K Hr) by lia.
    set (p := (2 * Zpos mr + 2 ^ K) / 2 ^ (K + 1)) in *.
    assert (Hp0 : 0 <= p).
    { apply Z.div_pos; [|apply Z.pow_pos_nonneg; lia].
      assert (0 < 2 ^ K) by (apply Z.pow_pos_nonneg; lia). lia. }
    assert (Hp101 : p < 101).
    { apply (Z.mul_lt_mono_pos_l (2 * t)); lia. }
    exists p. split; [|exact Hp].
    apply integral_of_Z. change (2 ^ 53) with 9007199254740992. lia.
Qed.

(** C8. [calculatePercentage] shows a nearest integer of the exact
    percentage: for a bucket count within a positive [totalReviews]
    below [2 ^ 44] the value of
    [Math.round((count / totalReviews) * 100)], computed on doubles as
    the code does, is an integer at most one half away from
    [100 * count / totalReviews]. It is the percentage rounded half up,
    or, only where the exact percentage ends in one half, possibly the
    integer below it. Without reviews it is 0 for every count, and no
    divisor the function ever divides by is zero. *)
Theorem calculatePercentage_nearest_percent
    (st : Dashboard.Stats) (count : Z) :
  let total := Dashboard.totalReviews st in
  (0 < total < 2 ^ 44 -> 0 <= count <= total ->
   exists p : Z,
     integral (Dashboard.calculatePercentage st count) = Some p
     /\ Z.abs (2 * total * p - 200 * count) <= total
     /\ (p = roundedShare total count
         \/ p = roundedShare total count - 1
            /\ (200 * count + total) mod (2 * total) = 0))
  /\ (total <= 0 -> Dashboard.calculatePercentage st count = 0%float)
  /\ Forall (fun divisor => divisor <> 0)
       (snd (Dashboard.calculatePercentage_traced st count)).
Proof.
  cbv zeta. split; [|split].
  - intros Ht Hc.
    destruct (calculatePercentage_nearest st count Ht Hc) as (p & Hp & Herr).
    exists p. split; [exact Hp|]. split; [exact Herr|].
    set (t := Dashboard.totalReviews st) in *. unfold roundedShare.
    pose proof (Z.div_mod (200 * count + t) (2 * t) ltac:(lia)) as Hdm.
    pose proof (Z.mod_pos_bound (200 * count + t) (2 * t) ltac:(lia)) as Hrem.
    set (r := (200 * count + t) / (2 * t)) in *.
    set (rem := (200 * count + t) mod (2 * t)) in *.
    assert (Hlt : p < r + 1).
    { apply (Z.mul_lt_mono_pos_l (2 * t)); lia. }
    assert (Hge : r - 1 < p + 1).
    { apply (Z.mul_lt_mono_pos_l (2 * t)); lia. }
    destruct (Z.eq_dec p r) as [|Hne]; [left; assumption|right].
    assert (Hp1 : p = r - 1) by lia. split; [exact Hp1|].
    assert (2 * t * p = 2 * t * r - 2 * t) by (rewrite Hp1; ring). lia.
  - intros Hle. unfold Dashboard.calculatePercentage,
      Dashboard.calculatePercentage_traced.
    destruct (Z.ltb_spec 0 (Dashboard.totalReviews st)); [lia | reflexivity].
  - unfold Dashboard.calculatePercentage_traced, Dashboard.divide.
    destruct (Z.ltb_spec 0 (Dashboard.totalReviews st)); cbn [snd].
    + apply Forall_cons_2; [lia | apply Forall_nil_2].
    + apply Forall_nil_2.
Qed.

(** Two of three reviews. *)
Lemma calculatePercentage_nearest_percent_witness :
  exists p : Z,
    integral (Dashboard.calculatePercentage (statsWith 3) 2) = Some p
    /\ Z.abs (2 * 3 * p - 200 * 2) <= 3
    /\ (p = roundedShare 3 2
        \/ p = roundedShare 3 2 - 1 /\ (200 * 2 + 3) mod (2 * 3) = 0).
Proof.
  apply (proj1 (calculatePercentage_nearest_percent (statsWith 3) 2));
    cbn; lia.
Defined.

(** 23 of 40 is 57.5 percent exactly and is shown as 57: the quotient
    0.575 is not a double, the double nearest to it lies below, and so
    does its product with 100. Rounded half up (and half to even) the
    percentage is 58. Likewise 29 of 200, 14.5 percent, is shown as 14.
    Where quotient and product are exact the half goes up: 1 of 8 is
    12.5 percent and is shown as 13. *)
Lemma tie_percentages_follow_the_double :
  integral (Dashboard.calculatePercentage (statsWith 40) 23) = Some 57
  /\ roundedShare 40 23 = 58
  /\ 2 * (100 * 23) = 115 * 40
  /\ integral (Dashboard.calculatePercentage (statsWith 200) 29) = Some 14
  /\ roundedShare 200 29 = 15
  /\ integral (Dashboard.calculatePercentage (statsWith 8) 1) = Some 13
  /\ roundedShare 8 1 = 13.
Proof. repeat split; vm_compute; reflexivity. Qed.

(** ** More on the sidebar's status check *)

(** What a check stores for a readable record, whatever was stored
    before. *)
Lemma checkUserStatus_readable (userData : UserData) (now : Z)
    (st : Sidebar.State) :
  readable userData ->
  exists trialEnd subscriptionEnd,
    Sidebar.dateOf (trialEndDate userData) = Returned trialEnd
    /\ Sidebar.dateOf (subscriptionEndDate userData) = Returned subscriptionEnd.
Proof.
  intros [Htrial Hsub].
  destruct (trialEndDate userData), (subscriptionEndDate userData);
    try congruence; cbn; eauto.
Qed.

Lemma checkUserStatus_stored (userData : UserData) (now : Z)
    (st : Sidebar.State) :
  readable userData ->
  exists trialInfo subscription,
    forall st0,
      Sidebar.checkUserStatus (FetchOk (Some userData)) now st0
      = (Returned tt,
         {| Sidebar.trialInfo := trialInfo;
            Sidebar.subscription := subscription;
            Sidebar.console := Sidebar.console st0 |}).
Proof.
  intros [Htrial Hsub]. run_effects.
  destruct (trialEndDate userData) as [|trialMillis|trialSeconds|];
    try congruence;
    destruct (subscriptionEndDate userData) as [|subMillis|subSeconds|];
    try congruence; cbv beta iota;
    destruct (truthy_bool (subscriptionActive userData));
    repeat match goal with
           | |- context [if ?c then _ else _] => destruct c
           end;
    do 2 eexists; intros st0; cbn; reflexivity.
Qed.

Lemma checkUserStatus_standing (userData : UserData) (now : Z)
    (st : Sidebar.State) :
  readable userData ->
  let st' := snd (Sidebar.checkUserStatus (FetchOk (Some userData)) now st) in
  exists standing,
    (Subscription.isActive (Sidebar.subscription st'),
     Trial.isTrial (Sidebar.trialInfo st'),
     Trial.trialEnded (Sidebar.trialInfo st')) = standingFlags standing
    /\ Trial.hasSubscription (Sidebar.trialInfo st')
       = Subscription.isActive (Sidebar.subscription st').
Proof.
  intros Hread.
  destruct (checkUserStatus_readable userData now st Hread)
    as [trialEnd [subscriptionEnd [Htrial Hsub]]].
  destruct (truthy_bool (subscriptionActive userData)) eqn:Hactive;
    [destruct subscriptionEnd as [subEnd|] eqn:Hend|].
  - cbv zeta.
    rewrite (run_subscribed _ now st _ _ Htrial Hsub subEnd Hactive eq_refl).
    exists Subscribed. split; reflexivity.
  - cbv zeta.
    rewrite (run_unsubscribed _ now st _ _ Htrial Hsub (or_intror eq_refl)).
    destruct trialEnd as [t|]; [destruct (Sidebar.laterThan t now)|];
      (exists OnTrial + exists Expired); split; reflexivity.
  - cbv zeta.
    rewrite (run_unsubscribed _ now st _ _ Htrial Hsub (or_introl Hactive)).
    destruct trialEnd as [t|]; [destruct (Sidebar.laterThan t now)|];
      (exists OnTrial + exists Expired); split; reflexivity.
Qed.

(** X1. After a status check on a user record whose dates can be read,
    exactly one of "active subscription", "running trial" and "trial
    ended" holds, [hasSubscription] equals [isActive], and the status
    area shows exactly the matching one of its three panels: the plan,
    the trial period, or the "Trial Expired" alert. *)
Theorem status_check_exclusive
    (userData : UserData) (now : Z) (st : Sidebar.State) :
  readable userData ->
  let st' := snd (Sidebar.checkUserStatus (FetchOk (Some userData)) now st) in
  exists standing,
    (Subscription.isActive (Sidebar.subscription st'),
     Trial.isTrial (Sidebar.trialInfo st'),
     Trial.trialEnded (Sidebar.trialInfo st')) = standingFlags standing
    /\ Trial.hasSubscription (Sidebar.trialInfo st')
       = Subscription.isActive (Sidebar.subscription st')
    /\ (isSome (Sidebar.subscriptionText st'),
        isSome (Sidebar.trialText st'),
        Sidebar.trialExpiredAlert st') = standingFlags standing.
Proof.
  intros Hread st'.
  destruct (checkUserStatus_standing userData now st Hread)
    as [standing [Hflags Hhas]].
  fold st' in Hflags, Hhas.
  exists standing. split; [exact Hflags|]. split; [exact Hhas|].
  unfold Sidebar.subscriptionText, Sidebar.trialText, Sidebar.trialExpiredAlert.
  destruct standing; cbn [standingFlags] in Hflags;
    injection Hflags as -> -> ->; cbn [andb negb];
    repeat match goal with
           | |- context [if ?c then _ else _] => destruct c
           end; reflexivity.
Qed.

Lemma status_check_exclusive_witness :
  let st' := snd (Sidebar.checkUserStatus
                    (FetchOk (Some (sampleUser (Some true)
                                      (TsSeconds 1800000000)
                                      (TsTimestamp 1900000000000))))
                    1700000000000 Sidebar.initial) in
  isSome (Sidebar.trialText st') = false
  /\ Sidebar.trialExpiredAlert st' = false.
Proof.
  intros st'.
  destruct (status_check_exclusive
              (sampleUser (Some true) (TsSeconds 1800000000)
                 (TsTimestamp 1900000000000))
              1700000000000 Sidebar.initial)
    as [standing [Hflags [_ Hpanels]]].
  { split; discriminate. }
  assert (standing = Subscribed) as ->
    by (destruct standing; vm_compute in Hflags; congruence).
  split;
    [exact (f_equal (fun p => snd (fst p)) Hpanels)
    | exact (f_equal snd Hpanels)].
Defined.

(** X2. What a status check stores for a readable user record depends
    on the record and the instant only: the previous [trialInfo] and
    [subscription] leave no trace, the console is not written, and a
    second check of the same record at the same instant changes
    nothing. *)
Theorem status_check_forgets_previous_state
    (userData : UserData) (now : Z) (st1 st2 : Sidebar.State) :
  readable userData ->
  let check := Sidebar.checkUserStatus (FetchOk (Some userData)) now in
  Sidebar.trialInfo (snd (check st1)) = Sidebar.trialInfo (snd (check st2))
  /\ Sidebar.subscription (snd (check st1))
     = Sidebar.subscription (snd (check st2))
  /\ Sidebar.console (snd (check st1)) = Sidebar.console st1
  /\ snd (check (snd (check st1))) = snd (check st1).
Proof.
  intros Hread check.
  destruct (checkUserStatus_stored userData now st1 Hread)
    as [trialInfo [subscription Hstored]].
  subst check. rewrite !Hstored. repeat split.
Qed.

(** A paid state followed by a check of a record on trial. *)
Lemma status_check_forgets_previous_state_witness :
  let paid := snd (Sidebar.checkUserStatus
                     (FetchOk (Some (sampleUser (Some true)
                                       (TsTimestamp 1700086400000) TsMissing)))
                     1700000000000 Sidebar.initial) in
  let onTrial := sampleUser None TsMissing (TsSeconds 1700043200) in
  Sidebar.subscription
    (snd (Sidebar.checkUserStatus (FetchOk (Some onTrial)) 1700000000000 paid))
  = Sidebar.noSubscription.
Proof.
  intros paid onTrial.
  destruct (status_check_forgets_previous_state onTrial 1700000000000 paid
              Sidebar.initial) as [_ [Hsub _]].
  { split; discriminate. }
  rewrite Hsub. reflexivity.
Defined.

(** X3. Whatever the store answers (a rejection, no document, a record
    with unreadable dates), the sidebar's status check returns normally
    and writes at most one console line; for a visitor who is not
    signed in the callback changes nothing. *)
Theorem status_check_never_throws
    (userSnap : Fetched (option UserData)) (now : Z) (st : Sidebar.State) :
  fst (Sidebar.checkUserStatus userSnap now st) = Returned tt
  /\ (exists lines,
        Sidebar.console (snd (Sidebar.checkUserStatus userSnap now st))
        = (Sidebar.console st ++ lines)%list
        /\ (length lines <= 1)%nat)
  /\ Sidebar.onAuthStateChanged None userSnap now st = (Returned tt, st).
Proof.
  split; [|split; [|reflexivity]].
  - destruct userSnap as [|[userData|]]; run_effects; try reflexivity.
    destruct (trialEndDate userData); try reflexivity;
      destruct (subscriptionEndDate userData); try reflexivity;
      cbv beta iota;
      destruct (truthy_bool (subscriptionActive userData));
      repeat match goal with
             | |- context [if ?c then _ else _] => destruct c
             end; reflexivity.
  - destruct userSnap as [|[userData|]]; run_effects;
      try (eexists [_]; split; [reflexivity | cbn; lia]).
    destruct (trialEndDate userData);
      try (eexists [_]; split; [reflexivity | cbn; lia]);
      destruct (subscriptionEndDate userData);
      try (eexists [_]; split; [reflexivity | cbn; lia]);
      cbv beta iota;
      destruct (truthy_bool (subscriptionActive userData));
      repeat match goal with
             | |- context [if ?c then _ else _] => destruct c
             end;
      exists []; (split; [cbn; now rewrite app_nil_r | cbn; lia]).
Qed.

(** ** More on the navigation entries *)

Lemma isDisabled_access (st : Sidebar.State) (link : Sidebar.NavLink) :
  Trial.trialEnded (Sidebar.trialInfo st) = false
  \/ Subscription.isActive (Sidebar.subscription st) = true ->
  Sidebar.isDisabled st link = false.
Proof.
  unfold Sidebar.isDisabled. intros [-> | ->]; [reflexivity|].
  cbn. now rewrite andb_false_r.
Qed.

(** X4. Unless the trial has ended without an active subscription, no
    navigation entry is disabled: every entry without sub-entries is a
    link to its own path, never greyed out, and a click on it closes
    the mobile sheet and navigates to that path. *)
Theorem access_keeps_navigation
    (st : Sidebar.State) (ui : Sidebar.Ui) (pathname : string) :
  Trial.trialEnded (Sidebar.trialInfo st) = false
  \/ Subscription.isActive (Sidebar.subscription st) = true ->
  Forall2 (fun link e =>
      match Sidebar.subLinks link with
      | None =>
          exists l,
            e = Sidebar.Link l
            /\ Sidebar.link_label l = Sidebar.name link
            /\ Sidebar.to l = Sidebar.href link
            /\ Sidebar.link_style l <> Sidebar.DisabledStyle
            /\ forall ui',
                 Sidebar.clickLink l ui'
                 = (Sidebar.setOpen false ui', Some (Sidebar.href link))
      | Some _ =>
          exists style onClick shown,
            e = Sidebar.Button (Sidebar.name link) style false onClick shown
      end)
    Sidebar.businessLinks (Sidebar.SidebarContent st ui pathname).
Proof.
  intros Haccess. unfold Sidebar.SidebarContent.
  apply Forall2_fmap_r, Forall_Forall2_diag, Forall_forall.
  intros link _. unfold compose. cbv beta. unfold Sidebar.renderLink.
  rewrite (isDisabled_access st link Haccess).
  destruct (Sidebar.subLinks link) as [subs|].
  - do 3 eexists. reflexivity.
  - eexists. split; [reflexivity|].
    cbn [Sidebar.link_label Sidebar.to Sidebar.link_style].
    repeat split.
    destruct (_ || _); discriminate.
Qed.

(** A running trial, on the reviews page. *)
Lemma access_keeps_navigation_witness :
  let st := snd (Sidebar.checkUserStatus
                   (FetchOk (Some (sampleUser None TsMissing
                                     (TsTimestamp 1700043200000))))
                   1700000000000 Sidebar.initial) in
  length (Sidebar.SidebarContent st
            {| Sidebar.sheetOpen := true; Sidebar.settingsOpen := false |}
            "/components/business/reviews") = 4%nat.
Proof.
  intros st.
  pose proof (access_keeps_navigation st
                {| Sidebar.sheetOpen := true; Sidebar.settingsOpen := false |}
                "/components/business/reviews" (or_introl eq_refl)) as Hall.
  apply Forall2_length in Hall. rewrite <- Hall. reflexivity.
Defined.

(** X5. When the guard sends a user to the pricing page, the sidebar's
    check of the same record (with dates the guard can read) stores an
    ended trial without subscription: the "Trial Expired" alert is
    shown and every entry other than "Settings" is disabled. *)
Theorem pricing_redirect_disables_sidebar
    (userData : UserData) (now : Z) (uid : string)
    (page : Dashboard.Page) (st : Sidebar.State) :
  convertible (trialEndDate userData) ->
  subscriptionEndDate userData <> TsFaulty ->
  Dashboard.navigations
    (snd (Dashboard.guardHandler (Some uid) (FetchOk (Some userData)) now page))
  = (Dashboard.navigations page ++ ["/pricing"])%list ->
  let st' := snd (Sidebar.checkUserStatus (FetchOk (Some userData)) now st) in
  Sidebar.trialExpiredAlert st' = true
  /\ Sidebar.trialText st' = None
  /\ Sidebar.subscriptionText st' = None
  /\ forall link,
       Sidebar.name link <> "Settings" -> Sidebar.isDisabled st' link = true.
Proof.
  intros Hconv Hsub Hnav st'. subst st'.
  assert (Hrule : guardRule userData now = false).
  { revert Hnav. unfold Dashboard.guardHandler, andThen.
    rewrite (checkSubscription_convertible userData now page (or_intror Hconv)).
    destruct (guardRule userData now); [|reflexivity].
    cbn. intros Hnav. apply (f_equal (@length string)) in Hnav.
    rewrite length_app in Hnav. cbn in Hnav. lia. }
  unfold guardRule in Hrule. apply orb_false_iff in Hrule as [Hactive Hrun].
  destruct (checkUserStatus_readable userData now st) as [trialEnd [subEnd [Htrial Hend]]].
  { split; [|exact Hsub]. destruct Hconv as [-> | [millis ->]]; discriminate. }
  rewrite (run_unsubscribed _ now st _ _ Htrial Hend (or_introl Hactive)).
  assert (Hexpired :
    match trialEnd with
    | Some t => Sidebar.laterThan t now
    | None => false
    end = false).
  { destruct Hconv as [Hmissing | [millis Hstamp]].
    - rewrite Hmissing in Htrial. now injection Htrial as <-.
    - rewrite Hstamp in Htrial, Hrun. now injection Htrial as <-. }
  unfold Sidebar.trialExpiredAlert, Sidebar.trialText,
    Sidebar.subscriptionText, Sidebar.isDisabled.
  cbn [Sidebar.trialInfo Sidebar.subscription].
  destruct trialEnd as [t|]; [rewrite Hexpired|]; cbn; repeat split;
    intros link Hname;
    (destruct (String.eqb_spec (Sidebar.name link) "Settings");
     [contradiction | reflexivity]).
Qed.

(** A trial that ended an hour ago. *)
Lemma pricing_redirect_disables_sidebar_witness :
  Sidebar.trialExpiredAlert
    (snd (Sidebar.checkUserStatus
            (FetchOk (Some (sampleUser None TsMissing
                              (TsTimestamp 1699996400000))))
            1700000000000 Sidebar.initial)) = true.
Proof.
  destruct (pricing_redirect_disables_sidebar
              (sampleUser None TsMissing (TsTimestamp 1699996400000))
              1700000000000 "uid" Dashboard.initial Sidebar.initial
              (or_intror (ex_intro _ 1699996400000 eq_refl)))
    as [Halert _]; [discriminate | reflexivity | exact Halert].
Defined.

Lemma renderLink_active (st : Sidebar.State) (ui : Sidebar.Ui)
    (pathname : string) (link : Sidebar.NavLink) :
  Sidebar.isActiveStyle (Sidebar.style_of (Sidebar.renderLink st ui pathname link))
  = String.eqb pathname (Sidebar.href link)
    || (String.eqb (Sidebar.name link) "Settings"
        && Sidebar.isSettingsActive pathname).
Proof.
  unfold Sidebar.renderLink.
  destruct (Sidebar.subLinks link); cbn [Sidebar.style_of Sidebar.link_style];
    destruct (_ || _); [reflexivity | | reflexivity |];
    destruct (Sidebar.isDisabled st link); reflexivity.
Qed.

Lemma shouldKeepSettingsOpen_paths (pathname : string) :
  Sidebar.shouldKeepSettingsOpen pathname = true <-> In pathname settingsPaths.
Proof.
  unfold Sidebar.shouldKeepSettingsOpen, Sidebar.businessLinks, settingsPaths.
  cbn [existsb Sidebar.subLinks Sidebar.sub_href orb In].
  rewrite !orb_false_r, !orb_true_iff, !String.eqb_eq.
  intuition congruence.
Qed.

(** X6. For every path at most one navigation entry is highlighted, and
    at most one of the sub-entries shown under "Settings"; a
    highlighted sub-entry comes with "Settings" highlighted. *)
Theorem at_most_one_entry_highlighted
    (st : Sidebar.State) (ui : Sidebar.Ui) (pathname : string) :
  let entries := Sidebar.SidebarContent st ui pathname in
  (activeEntries entries <= 1)%nat
  /\ Forall (fun e =>
       (activeLinks (Sidebar.shown_of e) <= 1)%nat
       /\ ((0 < activeLinks (Sidebar.shown_of e))%nat ->
           Sidebar.isActiveStyle (Sidebar.style_of e) = true)) entries.
Proof.
  intros entries. subst entries. split.
  - unfold activeEntries, Sidebar.SidebarContent, Sidebar.businessLinks.
    cbn [map List.filter]. rewrite !renderLink_active.
    cbn [Sidebar.href Sidebar.name].
    change (String.eqb "Dashboard" "Settings") with false.
    change (String.eqb "Reviews" "Settings") with false.
    change (String.eqb "Review Link" "Settings") with false.
    change (String.eqb "Settings" "Settings") with true.
    cbn [andb]. rewrite !orb_false_r.
    destruct (String.eqb_spec pathname "/components/business/dashboard") as [->|_];
      [vm_compute; lia|].
    destruct (String.eqb_spec pathname "/components/business/reviews") as [->|_];
      [vm_compute; lia|].
    destruct (String.eqb_spec pathname "/components/business/review-link") as [->|_];
      [vm_compute; lia|].
    destruct (_ || _); cbn; lia.
  - unfold Sidebar.SidebarContent, Sidebar.businessLinks. cbn [map].
    repeat (apply Forall_cons_2; [split; [cbn; lia | cbn; lia]|]).
    apply Forall_cons_2; [|apply Forall_nil_2].
    rewrite renderLink_active. unfold Sidebar.renderLink.
    cbn [Sidebar.subLinks Sidebar.name Sidebar.href Sidebar.shown_of].
    change (String.eqb "Settings" "Settings") with true. cbn [andb].
    destruct (Sidebar.settingsOpen ui || Sidebar.shouldKeepSettingsOpen pathname);
      [|split; [cbn; lia | cbn; lia]].
    unfold activeLinks. cbn [map List.filter Sidebar.renderSubLink
      Sidebar.link_style Sidebar.sub_href].
    destruct (String.eqb_spec pathname "/components/business/settings/account")
      as [->|_]; [vm_compute; split; [lia | reflexivity]|].
    destruct (String.eqb_spec pathname "/components/business/settings/location")
      as [->|_]; [vm_compute; split; [lia | reflexivity]|].
    destruct (String.eqb_spec pathname
                "/components/business/settings/businessusers")
      as [->|_]; [vm_compute; split; [lia | reflexivity]|].
    cbn. split; lia.
Qed.

(** X7. On the page of a sub-entry the list under "Settings" cannot be
    collapsed: all three sub-entries are rendered whatever
    [settingsOpen] is (so also after a click on "Settings" has toggled
    it), exactly the sub-entry of the page is highlighted, and both
    effects set [settingsOpen]. *)
Theorem settings_list_pinned_on_subpages
    (st : Sidebar.State) (ui : Sidebar.Ui) (pathname : string) :
  In pathname settingsPaths ->
  exists settings,
    nth_error (Sidebar.SidebarContent st ui pathname) 3 = Some settings
    /\ Sidebar.label settings = "Settings"
    /\ map Sidebar.to (Sidebar.shown_of settings) = settingsPaths
    /\ map (fun l => Sidebar.isActiveStyle (Sidebar.link_style l))
         (Sidebar.shown_of settings)
       = map (String.eqb pathname) settingsPaths
    /\ activeLinks (Sidebar.shown_of settings) = 1%nat
    /\ Sidebar.settingsOpen (Sidebar.mountEffect pathname ui) = true
    /\ Sidebar.settingsOpen (Sidebar.keepOpenEffect pathname ui) = true.
Proof.
  intros Hpath.
  pose proof (proj2 (shouldKeepSettingsOpen_paths pathname) Hpath) as Hkeep.
  unfold Sidebar.SidebarContent, Sidebar.businessLinks.
  cbn [map nth_error]. unfold Sidebar.renderLink at 1.
  cbn [Sidebar.subLinks Sidebar.name].
  change (String.eqb "Settings" "Settings") with true. cbn [andb].
  rewrite Hkeep, orb_true_r.
  eexists. split; [reflexivity|]. split; [reflexivity|].
  split; [reflexivity|].
  split.
  { cbn [Sidebar.shown_of map Sidebar.renderSubLink Sidebar.link_style
         Sidebar.sub_href settingsPaths].
    repeat (f_equal; try (destruct (String.eqb pathname _); reflexivity)). }
  unfold Sidebar.mountEffect, Sidebar.keepOpenEffect. rewrite Hkeep.
  unfold settingsPaths in Hpath. cbn [In] in Hpath.
  destruct Hpath as [<- | [<- | [<- | []]]]; vm_compute; repeat split.
Qed.

(** The account page with the list toggled shut. *)
Lemma settings_list_pinned_on_subpages_witness :
  exists settings,
    nth_error
      (Sidebar.SidebarContent Sidebar.initial
         {| Sidebar.sheetOpen := false; Sidebar.settingsOpen := false |}
         "/components/business/settings/account") 3 = Some settings
    /\ length (Sidebar.shown_of settings) = 3%nat.
Proof.
  destruct (settings_list_pinned_on_subpages Sidebar.initial
              {| Sidebar.sheetOpen := false; Sidebar.settingsOpen := false |}
              "/components/business/settings/account")
    as [settings [Hnth [_ [Hshown _]]]].
  { left. reflexivity. }
  exists settings. split; [exact Hnth|].
  apply (f_equal (@length string)) in Hshown.
  now rewrite length_map in Hshown.
Defined.

(** ** More on the dashboard's loader *)

(** X8. For a signed-in user the loader never throws and always ends
    with [loading] cleared, whatever the two fetches answer; for a
    visitor who is not signed in it leaves [loading] as it was. *)
Theorem loader_always_clears_loading
    (uid : string) (userDoc : Fetched (option UserData))
    (querySnapshot : Fetched (list ReviewDoc)) (page : Dashboard.Page) :
  fst (Dashboard.loadHandler (Some uid) userDoc querySnapshot page) = Returned tt
  /\ Dashboard.loading
       (snd (Dashboard.loadHandler (Some uid) userDoc querySnapshot page)) = false
  /\ fst (Dashboard.loadHandler None userDoc querySnapshot page) = Returned tt
  /\ Dashboard.loading
       (snd (Dashboard.loadHandler None userDoc querySnapshot page))
     = Dashboard.loading page.
Proof.
  destruct userDoc as [|[userData|]], querySnapshot as [|docs]; repeat split.
Qed.

(** X9. The only path the loader ever requests is the login page, at
    most once per call, and it requests it exactly when nobody is
    signed in or the user document does not exist; a rejected fetch
    requests nothing. *)
Theorem loader_navigates_only_to_login
    (user : option string) (userDoc : Fetched (option UserData))
    (querySnapshot : Fetched (list ReviewDoc)) (page : Dashboard.Page) :
  Dashboard.navigations
    (snd (Dashboard.loadHandler user userDoc querySnapshot page))
  = (Dashboard.navigations page
     ++ (if needsLogin user userDoc then ["/login"] else []))%list.
Proof.
  destruct user as [uid|], userDoc as [|[userData|]], querySnapshot as [|docs];
    cbn; try reflexivity; now rewrite app_nil_r.
Qed.

(** X10. A rejected fetch never changes the review list or the review
    statistics and never navigates: it adds one [console.error] line
    and clears [loading]. When it is the user document that cannot be
    fetched nothing else changes; when it is the review query, the
    business name, link clicks and response rate of the fetched user
    document are already on the page. *)
Theorem failed_fetch_keeps_reviews
    (uid : string) (userData : UserData) (docs : Fetched (list ReviewDoc))
    (page : Dashboard.Page) :
  let noUser := snd (Dashboard.loadHandler (Some uid) FetchFailed docs page) in
  let noReviews :=
    snd (Dashboard.loadHandler (Some uid) (FetchOk (Some userData))
           FetchFailed page) in
  noUser
  = {| Dashboard.businessName := Dashboard.businessName page;
       Dashboard.loading := false;
       Dashboard.reviews := Dashboard.reviews page;
       Dashboard.stats := Dashboard.stats page;
       Dashboard.navigations := Dashboard.navigations page;
       Dashboard.console :=
         (Dashboard.console page
          ++ [ConsoleError "Error fetching data:" StoreError])%list |}
  /\ noReviews
     = {| Dashboard.businessName :=
            or_string (businessInfo userData ≫= Business.businessName) "";
          Dashboard.loading := false;
          Dashboard.reviews := Dashboard.reviews page;
          Dashboard.stats :=
            {| Dashboard.totalReviews :=
                 Dashboard.totalReviews (Dashboard.stats page);
               Dashboard.averageRating :=
                 Dashboard.averageRating (Dashboard.stats page);
               Dashboard.linkClicks :=
                 or_zero (businessInfo userData ≫= Business.linkClicks);
               Dashboard.responseRate :=
                 or_zero (businessInfo userData ≫= Business.responseRate);
               Dashboard.ratingDistribution :=
                 Dashboard.ratingDistribution (Dashboard.stats page) |};
          Dashboard.navigations := Dashboard.navigations page;
          Dashboard.console :=
            (Dashboard.console page
             ++ [ConsoleError "Error fetching data:" StoreError])%list |}.
Proof. split; reflexivity. Qed.

(** X11. The guard touches nothing but the router: it leaves the page
    as it was or adds the single request "/pricing"; when it throws
    (rejected fetch, unreadable trial date) and for a visitor who is
    not signed in it requests nothing. *)
Theorem guard_only_requests_pricing
    (user : option string) (userSnap : Fetched (option UserData)) (now : Z)
    (page : Dashboard.Page) :
  let result := Dashboard.guardHandler user userSnap now page in
  (snd result = page
   \/ (fst result = Returned tt
       /\ snd result
          = {| Dashboard.businessName := Dashboard.businessName page;
               Dashboard.loading := Dashboard.loading page;
               Dashboard.reviews := Dashboard.reviews page;
               Dashboard.stats := Dashboard.stats page;
               Dashboard.navigations :=
                 (Dashboard.navigations page ++ ["/pricing"])%list;
               Dashboard.console := Dashboard.console page |}))
  /\ (forall e, fst result = Thrown e -> snd result = page)
  /\ (user = None -> result = (Returned tt, page))
  /\ (userSnap = FetchFailed -> user <> None ->
      result = (Thrown StoreError, page)).
Proof.
  destruct user as [uid|], userSnap as [|[userData|]]; run_effects;
    cbv zeta; repeat split; try (now left); try (now right);
    try discriminate; try congruence;
    destruct (truthy_bool (subscriptionActive userData));
    try destruct (trialEndDate userData) as [|millis|seconds|];
    try destruct (now <? millis);
    cbn; try (now left); try (now right); try discriminate; reflexivity.
Qed.

(** ** What the dashboard renders after a load *)

Lemma countRated_bounds (r : Z) (docs : list ReviewDoc) :
  0 <= countRated r docs <= Z.of_nat (length docs).
Proof.
  unfold countRated. split; [lia|].
  apply inj_le, filter_length_le.
Qed.

Lemma sorted_of_length (docs : list ReviewDoc) :
  length (Dashboard.sorted_of docs) = length docs.
Proof.
  unfold Dashboard.sorted_of.
  rewrite <- (Permutation_length (Array_sort_Permutation _ _)).
  now rewrite forEach_reviewsData, length_map.
Qed.

(** X12. After a successful load the page is consistent: the review
    list has exactly [totalReviews] entries, there are five buckets,
    each between 0 and [totalReviews], and the "No reviews yet"
    placeholder is shown exactly when no review document was fetched. *)
Theorem loaded_page_consistent
    (uid : string) (userData : UserData) (docs : list ReviewDoc)
    (page : Dashboard.Page) :
  let page' :=
    snd (Dashboard.loadHandler (Some uid) (FetchOk (Some userData))
           (FetchOk docs) page) in
  let st := Dashboard.stats page' in
  Z.of_nat (length (Dashboard.reviews page')) = Dashboard.totalReviews st
  /\ length (Dashboard.ratingDistribution st) = 5%nat
  /\ Forall (fun count => 0 <= count <= Dashboard.totalReviews st)
       (Dashboard.ratingDistribution st)
  /\ (Dashboard.renderRecent page' = Dashboard.NoReviewsYet <-> docs = [])
  /\ (Dashboard.totalReviews st = 0 <-> docs = []).
Proof.
  intros page' st. subst st page'. rewrite loadHandler_loaded.
  cbn [snd Dashboard.stats Dashboard.reviews Dashboard.totalReviews
       Dashboard.ratingDistribution].
  rewrite distribution_of_tally, count_of_length.
  split; [now rewrite sorted_of_length|]. split; [reflexivity|]. split.
  - unfold tally. repeat (apply Forall_cons_2; [apply countRated_bounds|]).
    apply Forall_nil_2.
  - unfold Dashboard.renderRecent. cbn [Dashboard.reviews].
    rewrite sorted_of_length.
    destruct docs as [|doc docs]; cbn [length Nat.ltb Nat.leb];
      (split; split; intros H; try reflexivity; try discriminate; lia).
Qed.

Lemma StronglySorted_app_In {A : Type} (R : A -> A -> Prop) (l1 l2 : list A)
    (a b : A) :
  StronglySorted R (l1 ++ l2) -> In a l1 -> In b l2 -> R a b.
Proof.
  induction l1 as [|x l1 IH]; cbn [app In]; [contradiction|].
  intros Hsorted [<- | Ha] Hb.
  - apply StronglySorted_inv in Hsorted as [_ Hall].
    rewrite List.Forall_forall in Hall. apply Hall, in_or_app. now right.
  - apply StronglySorted_inv in Hsorted as [Hsorted _]. now apply IH.
Qed.

(** X13. "Recent Reviews" shows the newest reviews: its rows are the
    first five of the sorted list (all of them when there are fewer),
    in that order, and every review shown is at least as recent as
    every review left out. *)
Theorem recent_reviews_are_the_newest
    (uid : string) (userData : UserData) (docs : list ReviewDoc)
    (page : Dashboard.Page) :
  docs <> [] ->
  let page' :=
    snd (Dashboard.loadHandler (Some uid) (FetchOk (Some userData))
           (FetchOk docs) page) in
  let shown := take 5 (Dashboard.reviews page') in
  let hidden := drop 5 (Dashboard.reviews page') in
  Dashboard.renderRecent page' = Dashboard.Rows (map Dashboard.renderReview shown)
  /\ length shown = Nat.min 5 (length docs)
  /\ Permutation (map Dashboard.normalize docs) (shown ++ hidden)
  /\ forall a b, In a shown -> In b hidden -> newerFirst a b.
Proof.
  intros Hdocs page' shown hidden. subst shown hidden page'.
  rewrite loadHandler_loaded. cbn [snd Dashboard.reviews].
  split; [|split; [|split]].
  - unfold Dashboard.renderRecent. cbn [Dashboard.reviews].
    rewrite sorted_of_length.
    destruct docs as [|doc docs]; [contradiction | reflexivity].
  - rewrite length_take, sorted_of_length. reflexivity.
  - rewrite take_drop. unfold Dashboard.sorted_of.
    rewrite forEach_reviewsData. apply Array_sort_Permutation.
  - intros a b Ha Hb.
    assert (Hsorted : StronglySorted newerFirst
                        (take 5 (Dashboard.sorted_of docs)
                         ++ drop 5 (Dashboard.sorted_of docs))).
    { rewrite take_drop. unfold Dashboard.sorted_of.
      apply Sorted_StronglySorted; [exact newerFirst_transitive|].
      apply Array_sort_byRecency_Sorted. }
    exact (StronglySorted_app_In newerFirst _ _ a b Hsorted Ha Hb).
Qed.

(** Seven reviews, of which the two oldest are left out. *)
Lemma recent_reviews_are_the_newest_witness :
  let docs := map (fun s => sampleReview (Some 4) (Some s))
                [10; 70; 30; 50; 20; 60; 40] in
  let page' :=
    snd (Dashboard.loadHandler (Some "uid")
           (FetchOk (Some (sampleUser None TsMissing TsMissing)))
           (FetchOk docs) Dashboard.initial) in
  length (take 5 (Dashboard.reviews page')) = 5%nat
  /\ map Dashboard.createdAt (take 5 (Dashboard.reviews page'))
     = [70; 60; 50; 40; 30].
Proof.
  intros docs page'.
  destruct (recent_reviews_are_the_newest "uid"
              (sampleUser None TsMissing TsMissing) docs Dashboard.initial)
    as [_ [Hlen _]]; [discriminate|].
  split; [exact Hlen | reflexivity].
Defined.

(** X14. After a successful load "Rating Distribution" has five lines
    labelled 5, 4, 3, 2, 1 stars in this order; the line labelled [s]
    shows the number of fetched records rated exactly [s], and next to
    it [calculatePercentage] of that number. *)
Theorem distribution_rows_by_stars
    (uid : string) (userData : UserData) (docs : list ReviewDoc)
    (page : Dashboard.Page) :
  let st :=
    Dashboard.stats
      (snd (Dashboard.loadHandler (Some uid) (FetchOk (Some userData))
              (FetchOk docs) page)) in
  let rows := Dashboard.renderDistribution st in
  map Dashboard.stars rows = [5; 4; 3; 2; 1]
  /\ Forall (fun row =>
       Dashboard.row_count row = countRated (Dashboard.stars row) docs
       /\ Dashboard.percentage row
          = Dashboard.calculatePercentage st (Dashboard.row_count row)) rows
  /\ sumZ (map Dashboard.row_count rows) <= Dashboard.totalReviews st.
Proof.
  intros st rows. subst rows st. rewrite loadHandler_loaded.
  cbn [snd Dashboard.stats]. unfold Dashboard.renderDistribution.
  cbn [Dashboard.ratingDistribution Dashboard.totalReviews].
  rewrite distribution_of_tally. unfold tally.
  split; [reflexivity|]. split.
  - repeat (apply Forall_cons_2; [split; reflexivity|]). apply Forall_nil_2.
  - change (sumZ (map Dashboard.row_count _)) with (sumZ (tally docs)).
    rewrite sumZ_tally, count_of_length. apply countStarRated_le.
Qed.

(** ** Rows of "Recent Reviews" *)

(** X15. A review row fills its stars from the left, as many as the
    rating cut to 0..5: a rating above 5 still fills five stars, a
    rating of 0 or below none. A document without a rating is shown
    with no star filled. *)
Theorem review_stars_clamped (r : Dashboard.Review) (doc : ReviewDoc) :
  Dashboard.reviewStars r
  = (repeat true (clampStars (Dashboard.rating r))
     ++ repeat false (5 - clampStars (Dashboard.rating r)))%list
  /\ filledStars (Dashboard.reviewStars r) = clampStars (Dashboard.rating r)
  /\ (data_rating doc = None ->
      Dashboard.reviewStars (Dashboard.normalize doc)
      = [false; false; false; false; false]).
Proof.
  assert (Hstars : forall n : Z,
    map (fun i : nat => Z.of_nat i <? n) (seq 0 5)
    = (repeat true (clampStars n) ++ repeat false (5 - clampStars n))%list).
  { intros n. unfold clampStars.
    assert (Hn : n <= 0 \/ n = 1 \/ n = 2 \/ n = 3 \/ n = 4 \/ 5 <= n) by lia.
    destruct Hn as [Hn | [-> | [-> | [-> | [-> | Hn]]]]]; try reflexivity.
    - replace (Z.min 5 (Z.max 0 n)) with 0 by lia. cbn.
      repeat match goal with
             | |- context [?k <? n] => destruct (Z.ltb_spec k n); [lia|]
             end. reflexivity.
    - replace (Z.min 5 (Z.max 0 n)) with 5 by lia. cbn.
      repeat match goal with
             | |- context [?k <? n] => destruct (Z.ltb_spec k n); [|lia]
             end. reflexivity. }
  unfold Dashboard.reviewStars. split; [apply Hstars|]. split.
  - rewrite Hstars. unfold filledStars.
    generalize (clampStars (Dashboard.rating r)) as k. intros k.
    rewrite List.filter_app, length_app.
    assert (Htrue : forall m, length (List.filter (fun b : bool => b)
                                        (repeat true m)) = m)
      by (induction m; cbn; congruence).
    assert (Hfalse : forall m, length (List.filter (fun b : bool => b)
                                         (repeat false m)) = 0%nat)
      by (induction m; cbn; congruence).
    rewrite Htrue, Hfalse. lia.
  - intros Hmissing. unfold Dashboard.normalize. cbn [Dashboard.rating].
    rewrite Hmissing. reflexivity.
Qed.



(** ** The stars of the average *)

Lemma ltb_nan_r (x : number) : PrimFloat.ltb x PrimFloat.nan = false.
Proof.
  rewrite ltb_spec. change (Prim2SF PrimFloat.nan) with S754_nan.
  unfold SFltb, SFcompare. now destruct (Prim2SF x) as [[]|[]| |[]].
Qed.

(** X17. When the stored average is NaN (as after loading a record
    without rating) the "Average Rating" card fills none of its five
    stars. *)
Theorem NaN_average_fills_no_star (st : Dashboard.Stats) :
  Dashboard.averageRating st = PrimFloat.nan ->
  Dashboard.averageStars st = [false; false; false; false; false].
Proof.
  intros Hnan. unfold Dashboard.averageStars. rewrite Hnan.
  change (Math_floor PrimFloat.nan) with PrimFloat.nan.
  cbn [map seq]. now rewrite !ltb_nan_r.
Qed.

Lemma NaN_average_fills_no_star_witness :
  Dashboard.averageStars
    {| Dashboard.totalReviews := 2;
       Dashboard.averageRating :=
         Dashboard.average_of
           [sampleReview (Some 5) None; sampleReview None None];
       Dashboard.linkClicks := 0; Dashboard.responseRate := 0;
       Dashboard.ratingDistribution := [1; 0; 0; 0; 0] |}
  = [false; false; false; false; false].
Proof.
  apply NaN_average_fills_no_star. vm_compute. reflexivity.
Defined.

(** The stars of a finite average: 4.3 fills four, 5 fills five, 0.9
    none. *)
Lemma averageStars_examples :
  map (fun avg => filledStars (Dashboard.averageStars
         {| Dashboard.totalReviews := 3; Dashboard.averageRating := avg;
            Dashboard.linkClicks := 0; Dashboard.responseRate := 0;
            Dashboard.ratingDistribution := [0; 0; 0; 0; 0] |}))
    [PrimFloat.div 43 10; 5%float; PrimFloat.div 9 10; 0%float]
  = [4; 5; 0; 0]%nat.
Proof. vm_compute. reflexivity. Qed.

(** ** The order in which the store returns the documents *)

Lemma filter_length_Permutation {A : Type} (f : A -> bool) (l l' : list A) :
  Permutation l l' -> length (List.filter f l) = length (List.filter f l').
Proof.
  induction 1 as [|x l l' _ IH|x y l|l l' l'' _ IH1 _ IH2]; cbn [List.filter].
  - reflexivity.
  - destruct (f x); cbn [length]; congruence.
  - destruct (f x), (f y); reflexivity.
  - congruence.
Qed.

Lemma descending_unique (l1 l2 : list Z) :
  StronglySorted Z.ge l1 -> StronglySorted Z.ge l2 -> Permutation l1 l2 ->
  l1 = l2.
Proof.
  revert l2. induction l1 as [|a l1 IH]; intros l2 Hs1 Hs2 Hperm.
  - apply Permutation_nil in Hperm. now subst.
  - destruct l2 as [|b l2];
      [apply Permutation_sym, Permutation_nil in Hperm; discriminate|].
    apply StronglySorted_inv in Hs1 as [Hs1 Hall1].
    apply StronglySorted_inv in Hs2 as [Hs2 Hall2].
    rewrite List.Forall_forall in Hall1, Hall2.
    assert (Hab : a = b).
    { assert (Hb : In b (a :: l1))
        by (apply (Permutation_in b (Permutation_sym Hperm)); now left).
      assert (Ha : In a (b :: l2))
        by (apply (Permutation_in a Hperm); now left).
      destruct Hb as [Hb | Hb]; [congruence|].
      destruct Ha as [Ha | Ha]; [congruence|].
      apply Hall1 in Hb. apply Hall2 in Ha. lia. }
    subst b. f_equal. apply IH; try assumption.
    now apply Permutation_cons_inv in Hperm.
Qed.

Lemma StronglySorted_createdAt (l : list Dashboard.Review) :
  StronglySorted newerFirst l ->
  StronglySorted Z.ge (map Dashboard.createdAt l).
Proof.
  induction 1 as [|r l _ IH Hall]; cbn [map]; constructor; [exact IH|].
  rewrite List.Forall_forall in *. intros z Hz.
  apply in_map_iff in Hz as [r' [<- Hr']]. apply Hall in Hr'.
  unfold newerFirst in Hr'. lia.
Qed.

(** X18. The statistics do not depend on the order in which the store
    returns the review documents: for two orders of the same documents
    the review count and the five buckets are equal, the sorted lists
    hold the same reviews, and the sequence of creation times shown is
    the same. *)
Theorem fetch_order_is_irrelevant (docs docs' : list ReviewDoc) :
  Permutation docs docs' ->
  Dashboard.count_of docs = Dashboard.count_of docs'
  /\ Dashboard.distribution_of docs = Dashboard.distribution_of docs'
  /\ Permutation (Dashboard.sorted_of docs) (Dashboard.sorted_of docs')
  /\ map Dashboard.createdAt (Dashboard.sorted_of docs)
     = map Dashboard.createdAt (Dashboard.sorted_of docs').
Proof.
  intros Hperm.
  assert (Hsorted : Permutation (Dashboard.sorted_of docs)
                      (Dashboard.sorted_of docs')).
  { unfold Dashboard.sorted_of. rewrite !forEach_reviewsData.
    rewrite <- !Array_sort_Permutation. now apply Permutation_map. }
  split; [|split; [|split; [exact Hsorted|]]].
  - rewrite !count_of_length. now rewrite (Permutation_length Hperm).
  - rewrite !distribution_of_tally. unfold tally, countRated.
    now rewrite !(filter_length_Permutation _ docs docs' Hperm).
  - apply descending_unique.
    + apply StronglySorted_createdAt. unfold Dashboard.sorted_of.
      apply Sorted_StronglySorted; [exact newerFirst_transitive|].
      apply Array_sort_byRecency_Sorted.
    + apply StronglySorted_createdAt. unfold Dashboard.sorted_of.
      apply Sorted_StronglySorted; [exact newerFirst_transitive|].
      apply Array_sort_byRecency_Sorted.
    + now apply Permutation_map.
Qed.

(** Three documents returned in two different orders. *)
Lemma fetch_order_is_irrelevant_witness :
  Dashboard.distribution_of
    [sampleReview (Some 5) (Some 100); sampleReview (Some 2) (Some 300);
     sampleReview None (Some 200)]
  = Dashboard.distribution_of
      [sampleReview None (Some 200); sampleReview (Some 5) (Some 100);
       sampleReview (Some 2) (Some 300)].
Proof.
  apply (fetch_order_is_irrelevant
           [sampleReview (Some 5) (Some 100); sampleReview (Some 2) (Some 300);
            sampleReview None (Some 200)]
           [sampleReview None (Some 200); sampleReview (Some 5) (Some 100);
            sampleReview (Some 2) (Some 300)]).
  apply Permutation_sym.
  apply (Permutation_cons_app
           [sampleReview (Some 5) (Some 100); sampleReview (Some 2) (Some 300)]
           [] (sampleReview None (Some 200))).
  rewrite app_nil_r. reflexivity.
Defined.
